(** * The UDP packet-forwarder client of lds (LoRaWAN device simulator)

    A shallow embedding of [lds/udp.go] (type [NSClient], [toMilliseconds],
    [sendWithPayload], [UDPParsePacket]) and of [forwarderConnect] from
    [forwarder.go], together with the parts of the Go standard library these
    functions call ([encoding/binary], [encoding/base64], [encoding/hex],
    [encoding/json], [fmt], [strconv], [net]).

    Conventions.
    - [[]byte] is [list byte]; a Go [string] is a [string]; fixed-width
      integers are [Z] with their wrap-around written out.
    - A Go [error] is [option error], [None] being [nil].
    - A call either returns or panics: [outcome].
    - Logging ([logrus], [fmt.Printf]) has no effect on any value computed
      here and is left out. *)

From Stdlib Require Import ZArith List String Ascii Bool Lia.
From Stdlib Require Import Strings.Byte DecimalString DecimalPos DecimalZ.
Import ListNotations.

#[local] Set Warnings "-register-all".

Local Open Scope string_scope.
Local Open Scope list_scope.
Local Open Scope Z_scope.

(* ================================================================= *)
(** ** Go run-time: errors, panics, outcomes *)

(** The error values that the modelled calls can produce. *)
Inductive error : Type :=
| io_EOF
| io_ErrUnexpectedEOF
| hex_InvalidByteError (c : ascii)
| hex_ErrLength
| json_UnsupportedValueError
| strconv_ErrSyntax (fn input : string)
| strconv_ErrRange (fn input : string)
| errors_New (msg : string)
| net_OpError (op : string).

(** Run-time panics. *)
Inductive panic : Type :=
| nil_pointer_dereference
| slice_bounds_out_of_range
| reflect_unexported_field (setter : string).

Inductive outcome (A : Type) : Type :=
| Returned (a : A)
| Panicked (p : panic).
Arguments Returned {A} a.
Arguments Panicked {A} p.

Definition bind {A B} (m : outcome A) (k : A -> outcome B) : outcome B :=
  match m with
  | Returned a => k a
  | Panicked p => Panicked p
  end.

Notation "x <- m ;; k" := (bind m (fun x => k))
  (at level 61, m at next level, right associativity).
Notation "' pat <- m ;; k" := (bind m (fun x => match x with pat => k end))
  (at level 61, pat pattern, m at next level, right associativity).

(** Dereferencing a pointer: [nil] panics. *)
Definition deref {A} (p : option A) : outcome A :=
  match p with
  | Some a => Returned a
  | None => Panicked nil_pointer_dereference
  end.

(* ================================================================= *)
(** ** Bytes and fixed-width integers *)

Definition u8 (b : byte) : Z := Z.of_N (Byte.to_N b).

(** The conversion [byte(x)]: the low eight bits. *)
Definition to_byte (z : Z) : byte :=
  match Byte.of_N (Z.to_N (z mod 256)) with
  | Some b => b
  | None => x00
  end.

Definition wrap (w : Z) (z : Z) : Z := z mod 2 ^ w.
Definition uint32 (z : Z) : Z := wrap 32 z.
Definition uint64 (z : Z) : Z := wrap 64 z.

(** Reinterpretation of a [w]-bit pattern as a two's complement number. *)
Definition signed (w : Z) (z : Z) : Z :=
  let u := wrap w z in
  if u <? 2 ^ (w - 1) then u else u - 2 ^ w.

(* ================================================================= *)
(** ** encoding/binary: [binary.Read] into a struct *)

Module binary.

Inductive Kind : Type := Int8 | Int16 | Int32 | Int64.

Definition sizeof (k : Kind) : nat :=
  match k with Int8 => 1 | Int16 => 2 | Int32 => 4 | Int64 => 8 end%nat.

Record StructField : Type := { Name : string; Type_ : Kind }.

(** A field is exported when its name starts with an upper-case letter
    (names here are ASCII). *)
Definition exported (f : StructField) : bool :=
  match Name f with
  | String c _ => let n := N_of_ascii c in ((65 <=? n) && (n <=? 90))%N
  | EmptyString => false
  end.

Definition blank (f : StructField) : bool := (Name f =? "_")%string.

Definition dataSize (fs : list StructField) : nat :=
  fold_right (fun f n => (sizeof (Type_ f) + n)%nat) 0%nat fs.

(** [io.ReadFull] on a [bytes.Reader] holding [r], for [n] bytes. *)
Definition ReadFull (r : list byte) (n : nat) : list byte + error :=
  if (n =? 0)%nat then inl []
  else match r with
       | [] => inr io_EOF
       | _ => if (List.length r <? n)%nat then inr io_ErrUnexpectedEOF
              else inl (firstn n r)
       end.

(** Little-endian value of a byte sequence. *)
Fixpoint le_unsigned (bs : list byte) : Z :=
  match bs with
  | [] => 0
  | b :: bs' => Z.lor (u8 b) (Z.shiftl (le_unsigned bs') 8)
  end.

Definition le_int (k : Kind) (bs : list byte) : Z :=
  signed (8 * Z.of_nat (sizeof k)) (le_unsigned (firstn (sizeof k) bs)).

(** [decoder.value] on a struct.  Blank fields are skipped and keep their
    zero value.  Every other field is stored through reflection
    ([reflect.Value.SetInt]), which panics on a field that is not
    exported: "When reading into a struct, all non-blank fields must be
    exported or Read may panic" (package documentation). *)
Fixpoint value (buf : list byte) (fs : list StructField) : outcome (list Z) :=
  match fs with
  | [] => Returned []
  | f :: fs' =>
      let n := sizeof (Type_ f) in
      if blank f then
        vs <- value (skipn n buf) fs' ;; Returned (0 :: vs)
      else if exported f then
        vs <- value (skipn n buf) fs' ;; Returned (le_int (Type_ f) buf :: vs)
      else Panicked (reflect_unexported_field "SetInt")
  end.

(** [binary.Read(r, binary.LittleEndian, &data)] for a struct [data] with
    fields [fs], all zero before the call.  Returns the error and the
    struct's field values afterwards. *)
Definition Read (r : list byte) (fs : list StructField)
  : outcome (option error * list Z) :=
  match ReadFull r (dataSize fs) with
  | inr e => Returned (Some e, map (fun _ => 0) fs)
  | inl buf => vs <- value buf fs ;; Returned (None, vs)
  end.

End binary.

(* ================================================================= *)
(** ** JSON values *)

(** IEEE-754 binary64, by its bit pattern. *)
Record float64 : Type := Float64frombits { Float64bits : Z }.

(** [math.IsInf(f, 0) || math.IsNaN(f)]: the exponent field is all ones. *)
Definition IsInf_or_NaN (f : float64) : bool :=
  Z.land (Z.shiftr (Float64bits f) 52) 2047 =? 2047.

(** The [float32] values the program computes: [float32(hz) / 1000000.0]
    for a [uint32] [hz].  The quotient is finite for every [hz]; its
    rounding is not evaluated. *)
Inductive float32 : Type :=
| Float32_MHz (hz : Z).

Inductive json : Type :=
| JString (s : string)
| JInt (z : Z)
| JFloat32 (f : float32)
| JFloat64 (f : float64)
| JArray (elems : list json)
| JObject (members : list (string * json)).

(** [map[string]interface{}] *)
Definition jsonMap : Type := list (string * json).

(** Reading a JSON object: the value of the first member named [k]. *)
Fixpoint json_lookup (k : string) (members : list (string * json))
  : option json :=
  match members with
  | [] => None
  | (k', v) :: rest => if (k =? k')%string then Some v else json_lookup k rest
  end.

Definition json_member (k : string) (v : json) : option json :=
  match v with
  | JObject members => json_lookup k members
  | _ => None
  end.

(* ================================================================= *)
(** ** [UDPParsePacket] *)

(** The local [var data struct { version int8; token int16; id int8 }]. *)
Definition data_fields : list binary.StructField :=
  [ {| binary.Name := "version"; binary.Type_ := binary.Int8 |};
    {| binary.Name := "token";   binary.Type_ := binary.Int16 |};
    {| binary.Name := "id";      binary.Type_ := binary.Int8 |} ].

Definition data_id (data : list Z) : Z := nth 2 data 0.

(** [packet[n:]] *)
Definition slice_from {A} (n : nat) (s : list A) : outcome (list A) :=
  if (List.length s <? n)%nat then Panicked slice_bounds_out_of_range
  else Returned (skipn n s).

(** [UDPParsePacket(packet, result)] with the header struct's fields as a
    parameter: the two return values and the map [*result] after the
    call. *)
Definition UDPParsePacket_reading (fields : list binary.StructField)
    (packet : list byte) (result : jsonMap)
  : outcome (bool * option error * jsonMap) :=
  '(err, data) <- binary.Read packet fields ;;
  match err with
  | Some e => Returned (false, Some e, result)
  | None =>
      (* PULL_RESP == 0x03 *)
      if negb (data_id data =? 3) then Returned (false, None, result)
      else
        jsonBytes <- slice_from 4 packet ;;
        let jsonString := string_of_list_byte jsonBytes in
        Returned (false, None, @nil (string * json))
  end.

(** UDPParsePacket extract metadata and physial payload from a packet *)
Definition UDPParsePacket (packet : list byte) (result : jsonMap)
  : outcome (bool * option error * jsonMap) :=
  UDPParsePacket_reading data_fields packet result.

(* ================================================================= *)
(** ** fmt: [fmt.Sprintf] for the verbs [%d] and [%s] *)

Module fmt.

Inductive arg : Type :=
| Int (z : Z)
| Str (s : string).

(** Decimal digits of an integer, with a leading minus sign when negative. *)
Definition decimal (z : Z) : string :=
  DecimalString.NilEmpty.string_of_int (Z.to_int z).

(** One operand under the verb [v]; an operand of the wrong type is
    printed the way [fmt] reports it. *)
Definition verb (v : ascii) (a : arg) : string :=
  match a with
  | Int z =>
      if (v =? "d")%char then decimal z
      else "%!" ++ String v ("(int=" ++ decimal z ++ ")")
  | Str s =>
      if (v =? "s")%char then s
      else "%!" ++ String v ("(string=" ++ s ++ ")")
  end%string.

(** [Sprintf] on the formats this program writes: text, the verbs [%d] and
    [%s] and the literal [%%], with integer and string operands.  Flags,
    widths, the other verbs and the report of operands left over are not
    part of this fragment. *)
Fixpoint Sprintf (format : string) (args : list arg) : string :=
  match format with
  | EmptyString => EmptyString
  | String c rest =>
      if (c =? "%")%char then
        match rest with
        | EmptyString => "%!(NOVERB)"
        | String v rest' =>
            if (v =? "%")%char then String "%" (Sprintf rest' args)
            else
              match args with
              | [] => "%!" ++ String v ("(MISSING)" ++ Sprintf rest' [])
              | a :: args' => verb v a ++ Sprintf rest' args'
              end
        end
      else String c (Sprintf rest args)
  end%string.

End fmt.

(* ================================================================= *)
(** ** strconv: [strconv.Atoi] (64-bit [int]) *)

Module strconv.

(** [*NumError] with [Func], [Num] and [Err] one of [ErrSyntax],
    [ErrRange]. *)
Inductive ErrKind : Type := ErrSyntax | ErrRange.

Definition NumError (fn num : string) (k : ErrKind) : error :=
  match k with
  | ErrSyntax => strconv_ErrSyntax fn num
  | ErrRange => strconv_ErrRange fn num
  end.

(** [nerr.Func = fn] *)
Definition set_Func (fn : string) (e : error) : error :=
  match e with
  | strconv_ErrSyntax _ num => strconv_ErrSyntax fn num
  | strconv_ErrRange _ num => strconv_ErrRange fn num
  | _ => e
  end.

(** The value of a decimal digit; a letter is a digit beyond the base and
    any other byte is no digit. *)
Definition digit (c : ascii) : option Z :=
  let ch := Z.of_N (N_of_ascii c) - 48 in
  if (0 <=? ch) && (ch <=? 9) then Some ch else None.

Definition maxUint64 : Z := 2 ^ 64 - 1.

(** The loop of [ParseUint(s, 10, 64)]. *)
Fixpoint ParseUint_loop (n : Z) (s : string) : Z * option ErrKind :=
  match s with
  | EmptyString => (n, None)
  | String c s' =>
      match digit c with
      | None => (0, Some ErrSyntax)
      | Some d =>
          if maxUint64 / 10 + 1 <=? n then (maxUint64, Some ErrRange)
          else
            let n1 := n * 10 + d in
            if maxUint64 <? n1 then (maxUint64, Some ErrRange)
            else ParseUint_loop n1 s'
      end
  end.

Definition ParseUint (s : string) : Z * option ErrKind :=
  match s with
  | EmptyString => (0, Some ErrSyntax)
  | _ => ParseUint_loop 0 s
  end.

Definition is_sign (c : ascii) : bool := ((c =? "+") || (c =? "-"))%char.

(** [ParseInt(s, 10, 0)] *)
Definition ParseInt (s0 : string) : Z * option error :=
  match s0 with
  | EmptyString => (0, Some (NumError "ParseInt" s0 ErrSyntax))
  | String c s' =>
      let neg := (c =? "-")%char in
      let s := if is_sign c then s' else s0 in
      match ParseUint s with
      | (_, Some ErrSyntax) => (0, Some (NumError "ParseInt" s0 ErrSyntax))
      | (un, _) =>
          let cutoff := 2 ^ 63 in
          if negb neg && (cutoff <=? un)
          then (cutoff - 1, Some (NumError "ParseInt" s0 ErrRange))
          else if neg && (cutoff <? un)
          then (- cutoff, Some (NumError "ParseInt" s0 ErrRange))
          else (if neg then - un else un, None)
      end
  end.

(** The loop of the fast path: [ch -= '0'; if ch > 9 { syntax error }]. *)
Fixpoint Atoi_loop (n : Z) (s : string) : option Z :=
  match s with
  | EmptyString => Some n
  | String ch s' =>
      match digit ch with
      | Some d => Atoi_loop (n * 10 + d) s'
      | None => None
      end
  end.

Definition Atoi (s0 : string) : Z * option error :=
  let sLen := String.length s0 in
  if ((0 <? sLen) && (sLen <? 19))%nat then
    (* Fast path for small integers that fit int type. *)
    match s0 with
    | EmptyString => (0, Some (NumError "Atoi" s0 ErrSyntax))
    | String c s' =>
        let s := if is_sign c then s' else s0 in
        match s with
        | EmptyString => (0, Some (NumError "Atoi" s0 ErrSyntax))
        | _ =>
            match Atoi_loop 0 s with
            | None => (0, Some (NumError "Atoi" s0 ErrSyntax))
            | Some n => (if (c =? "-")%char then - n else n, None)
            end
        end
    end
  else
    (* Slow path for invalid, big, or underscored integers. *)
    let (i64, err) := ParseInt s0 in
    (i64, option_map (set_Func "Atoi") err).

End strconv.

(* ================================================================= *)
(** ** encoding/hex: [hex.DecodeString] *)

Module hex.

Definition fromHexChar (c : ascii) : option Z :=
  let n := Z.of_N (N_of_ascii c) in
  if (48 <=? n) && (n <=? 57) then Some (n - 48)
  else if (97 <=? n) && (n <=? 102) then Some (n - 97 + 10)
  else if (65 <=? n) && (n <=? 70) then Some (n - 65 + 10)
  else None.

(** The decoded bytes, or the error.  (Go also returns the bytes decoded
    before the error; the caller here drops them.) *)
Fixpoint DecodeString (s : string) : list byte + error :=
  match s with
  | EmptyString => inl []
  | String p EmptyString =>
      match fromHexChar p with
      | None => inr (hex_InvalidByteError p)
      | Some _ => inr hex_ErrLength
      end
  | String p (String q rest) =>
      match fromHexChar p with
      | None => inr (hex_InvalidByteError p)
      | Some a =>
          match fromHexChar q with
          | None => inr (hex_InvalidByteError q)
          | Some b =>
              match DecodeString rest with
              | inl bs => inl (to_byte (Z.lor (Z.shiftl a 4) b) :: bs)
              | inr e => inr e
              end
          end
      end
  end.

End hex.

(* ================================================================= *)
(** ** encoding/base64: [base64.StdEncoding] *)

Module base64.

Definition encodeStd : string :=
  "ABCDEFGHIJKLMNOPQRSTUVWXYZabcdefghijklmnopqrstuvwxyz0123456789+/".

Definition StdPadding : ascii := "="%char.

(** [enc.encode[v]] *)
Definition encode (v : Z) : ascii :=
  match String.get (Z.to_nat v) encodeStd with
  | Some c => c
  | None => StdPadding
  end.

Fixpoint index_from (i : Z) (c : ascii) (s : string) : option Z :=
  match s with
  | EmptyString => None
  | String c' s' => if (c =? c')%char then Some i else index_from (i + 1) c s'
  end.

(** [enc.decodeMap[c]], [None] standing for the entry [0xFF]. *)
Definition decodeMap (c : ascii) : option Z := index_from 0 c encodeStd.

(** [val>>k & 0x3F] *)
Definition sextet (val k : Z) : ascii :=
  encode (Z.land (Z.shiftr val k) 63).

Fixpoint EncodeToString (src : list byte) : string :=
  match src with
  | [] => EmptyString
  | [s0] =>
      let val := Z.shiftl (u8 s0) 16 in
      String (sextet val 18) (String (sextet val 12)
        (String StdPadding (String StdPadding EmptyString)))
  | [s0; s1] =>
      let val := Z.lor (Z.shiftl (u8 s0) 16) (Z.shiftl (u8 s1) 8) in
      String (sextet val 18) (String (sextet val 12)
        (String (sextet val 6) (String StdPadding EmptyString)))
  | s0 :: s1 :: s2 :: rest =>
      let val := Z.lor (Z.lor (Z.shiftl (u8 s0) 16) (Z.shiftl (u8 s1) 8))
                       (u8 s2) in
      String (sextet val 18) (String (sextet val 12)
        (String (sextet val 6) (String (sextet val 0)
           (EncodeToString rest))))
  end.

(** The decoder ignores carriage returns and line feeds. *)
Definition is_newline (c : ascii) : bool :=
  ((c =? "010") || (c =? "013"))%char.

Fixpoint strip_newlines (s : string) : string :=
  match s with
  | EmptyString => EmptyString
  | String c s' =>
      if is_newline c then strip_newlines s' else String c (strip_newlines s')
  end.

Definition is_pad (c : ascii) : bool := (c =? StdPadding)%char.

Definition is_empty (s : string) : bool :=
  match s with EmptyString => true | _ => false end.

(** One quantum of four characters at a time; padding is accepted only
    in the last quantum, in its third and fourth or in its fourth place. *)
Fixpoint decodeQuanta (s : string) : option (list byte) :=
  match s with
  | EmptyString => Some []
  | String c0 (String c1 (String c2 (String c3 rest))) =>
      match decodeMap c0, decodeMap c1 with
      | Some d0, Some d1 =>
          if is_pad c2 then
            if is_pad c3 && is_empty rest then
              let val := Z.lor (Z.shiftl d0 18) (Z.shiftl d1 12) in
              Some [to_byte (Z.shiftr val 16)]
            else None
          else
            match decodeMap c2 with
            | None => None
            | Some d2 =>
                if is_pad c3 then
                  if is_empty rest then
                    let val := Z.lor (Z.lor (Z.shiftl d0 18) (Z.shiftl d1 12))
                                     (Z.shiftl d2 6) in
                    Some [to_byte (Z.shiftr val 16); to_byte (Z.shiftr val 8)]
                  else None
                else
                  match decodeMap c3 with
                  | None => None
                  | Some d3 =>
                      let val :=
                        Z.lor (Z.lor (Z.lor (Z.shiftl d0 18) (Z.shiftl d1 12))
                                     (Z.shiftl d2 6)) d3 in
                      match decodeQuanta rest with
                      | Some bs =>
                          Some (to_byte (Z.shiftr val 16)
                                :: to_byte (Z.shiftr val 8)
                                :: to_byte val :: bs)
                      | None => None
                      end
                  end
            end
      | _, _ => None
      end
  | _ => None
  end.

(** [base64.StdEncoding.DecodeString]; the offset carried by Go's
    [CorruptInputError] is not kept. *)
Definition DecodeString (s : string) : option (list byte) :=
  decodeQuanta (strip_newlines s).

End base64.

(* ================================================================= *)
(** ** Protocol-buffer messages read by the client *)

Module duration.
(** [duration.Duration]: [Seconds] is an [int64], [Nanos] an [int32]. *)
Record Duration : Type := { Seconds : Z; Nanos : Z }.
End duration.

(** [github.com/brocaar/chirpstack-api/go/gw]: the fields the client reads.
    A message is handled through a pointer, [None] being [nil]; the
    generated getters accept a [nil] receiver and then answer the zero
    value. *)
Module gw.

Record LoRaModulationInfo : Type :=
  { Bandwidth : Z; SpreadingFactor : Z; CodeRate : string }.

Inductive isUplinkTXInfo_ModulationInfo : Type :=
| UplinkTXInfo_LoraModulationInfo (m : option LoRaModulationInfo)
| UplinkTXInfo_FskModulationInfo.

Record UplinkTXInfo : Type :=
  { Frequency : Z;
    ModulationInfo : option isUplinkTXInfo_ModulationInfo }.

Record UplinkRXInfo : Type :=
  { TimeSinceGpsEpoch : option duration.Duration;
    Rssi : Z;
    LoraSnr : float64;
    Channel : Z;
    RfChain : Z }.

Definition GetTimeSinceGpsEpoch (m : option UplinkRXInfo)
  : option duration.Duration :=
  match m with Some x => TimeSinceGpsEpoch x | None => None end.

Definition GetChannel (m : option UplinkRXInfo) : Z :=
  match m with Some x => Channel x | None => 0 end.

Definition GetRfChain (m : option UplinkRXInfo) : Z :=
  match m with Some x => RfChain x | None => 0 end.

Definition GetRssi (m : option UplinkRXInfo) : Z :=
  match m with Some x => Rssi x | None => 0 end.

Definition GetLoraSnr (m : option UplinkRXInfo) : float64 :=
  match m with Some x => LoraSnr x | None => Float64frombits 0 end.

Definition GetFrequency (m : option UplinkTXInfo) : Z :=
  match m with Some x => Frequency x | None => 0 end.

Definition GetLoraModulationInfo (m : option UplinkTXInfo)
  : option LoRaModulationInfo :=
  match m with
  | Some x =>
      match ModulationInfo x with
      | Some (UplinkTXInfo_LoraModulationInfo p) => p
      | _ => None
      end
  | None => None
  end.

Definition GetBandwidth (m : option LoRaModulationInfo) : Z :=
  match m with Some x => Bandwidth x | None => 0 end.

Definition GetCodeRate (m : option LoRaModulationInfo) : string :=
  match m with Some x => CodeRate x | None => EmptyString end.

End gw.

(* ================================================================= *)
(** ** What the client takes from outside *)

Definition IP : Type := list byte.

Definition udpPacketCallback : Type := list byte -> option error.

(** Results of library calls that are not computed here, and the state of
    the outside world at the time of a call. *)
Record Env : Type :=
  { (* encoding/json: a string as a quoted, escaped JSON string *)
    encodeString : string -> string;
    (* encoding/json: the text of a finite floating-point number *)
    formatFloat32 : float32 -> string;
    formatFloat64 : float64 -> string;
    (* net: parsers of the dotted-decimal and of the colon-separated form *)
    parseIPv4 : string -> option IP;
    parseIPv6 : string -> option IP;
    (* net.DialUDP("udp", nil, &addr): the error *)
    DialUDP : IP -> Z -> option error;
    (* conn.Write(bytes) on a socket connected to an address: the error *)
    Write : IP -> Z -> list byte -> option error;
    (* time.Now().Format(time.RFC3339) *)
    time_Now_RFC3339 : string;
    (* rand.Int() *)
    rand_Int : Z;
    (* evio.Serve(events, addr): the error it returns once it returns;
       an address that cannot be bound makes it return one at once *)
    Serve : string -> option error }.

(* ================================================================= *)
(** ** encoding/json: [json.Marshal] *)

Module encoding_json.

(** A floating-point value that is infinite or not a number cannot be
    encoded. *)
Fixpoint supported (v : json) : bool :=
  match v with
  | JFloat64 f => negb (IsInf_or_NaN f)
  | JArray elems => forallb supported elems
  | JObject members =>
      forallb (fun kv => let (_, x) := kv : string * json in supported x)
              members
  | _ => true
  end.

Definition quote : string := String (ascii_of_nat 34) EmptyString.

Section Encode.
Variable env : Env.

Fixpoint encode (v : json) : string :=
  match v with
  | JString s => encodeString env s
  | JInt z => fmt.decimal z
  | JFloat32 f => formatFloat32 env f
  | JFloat64 f => formatFloat64 env f
  | JArray elems =>
      "[" ++
      (fix array (l : list json) : string :=
         match l with
         | [] => EmptyString
         | [x] => encode x
         | x :: l' => encode x ++ "," ++ array l'
         end) elems
      ++ "]"
  | JObject members =>
      "{" ++
      (fix object (l : list (string * json)) : string :=
         match l with
         | [] => EmptyString
         | [(k, x)] => quote ++ k ++ quote ++ ":" ++ encode x
         | (k, x) :: l' =>
             quote ++ k ++ quote ++ ":" ++ encode x ++ "," ++ object l'
         end) members
      ++ "}"
  end%string.

Definition Marshal (v : json) : list byte + error :=
  if supported v then inl (list_byte_of_string (encode v))
  else inr json_UnsupportedValueError.

End Encode.

End encoding_json.

(* ================================================================= *)
(** ** github.com/tidwall/evio *)

Module evio.
(** [evio.Events], of which the client sets [Data] only.  The handler it
    installs calls [onReceive(in)] and answers with no output. *)
Record Events : Type := { Data : option udpPacketCallback }.
End evio.

(* ================================================================= *)
(** ** Package lds: the raw UDP client *)

Module lds.

(** NSClient is a raw UDP client *)
Record NSClient : Type :=
  { Server : string;
    Port : Z;
    connected : bool;
    udpEvents : evio.Events }.

Record pfpacket : Type :=
  { Time : string;
    TMMS : Z;
    TMST : Z;
    Chan : Z;
    RFCH : Z;
    Freq : float32;
    Stat : Z;
    Modu : string;
    DatR : string;
    CorR : string;
    RSSI : Z;
    LSNR : float64;
    Size : Z;
    Data : string }.

Record pfproto : Type := { RXPK : list pfpacket }.

(** The JSON values of the two structs, by their field tags. *)
Definition pfpacket_json (p : pfpacket) : json :=
  JObject
    [ ("time", JString (Time p));
      ("tmms", JInt (TMMS p));
      ("tmst", JInt (TMST p));
      ("chan", JInt (Chan p));
      ("rfch", JInt (RFCH p));
      ("freq", JFloat32 (Freq p));
      ("stat", JInt (Stat p));
      ("modu", JString (Modu p));
      ("datr", JString (DatR p));
      ("codr", JString (CorR p));
      ("rssi", JInt (RSSI p));
      ("lsnr", JFloat64 (LSNR p));
      ("size", JInt (Size p));
      ("data", JString (Data p)) ].

(** [RXPK] is never [nil] in this program; a [nil] slice would be encoded
    as [null]. *)
Definition pfproto_json (p : pfproto) : json :=
  JObject [ ("rxpk", JArray (map pfpacket_json (RXPK p))) ].

(** IsConnected checks if listening for incoming UDP *)
Definition IsConnected (client : NSClient) : bool := connected client.

(** A goroutine started by [go evio.Serve(events, addr)].  Nothing waits
    for it and what [evio.Serve] returns is dropped. *)
Record Goroutine : Type := go_Serve { events : evio.Events; addr : string }.

(** What the call made by the goroutine returns. *)
Definition Serve_result (env : Env) (g : Goroutine) : option error :=
  Serve env (addr g).

(** Connect starts listening incoming UDP.  Returns the error, the client
    after the call and the goroutines started. *)
Definition Connect (client : NSClient) (onReceive : udpPacketCallback)
  : option error * NSClient * list Goroutine :=
  let client :=
    {| Server := Server client; Port := Port client;
       connected := connected client;
       udpEvents := {| evio.Data := Some onReceive |} |} in
  let bindpoint := fmt.Sprintf "udp://0.0.0.0:%d" [fmt.Int (Port client)] in
  let started := [go_Serve (udpEvents client) bindpoint] in
  let client :=
    {| Server := Server client; Port := Port client;
       connected := true;
       udpEvents := udpEvents client |} in
  (None, client, started).

(** A datagram written to the network. *)
Record Datagram : Type := { dst : IP; dport : Z; bytes : list byte }.

(** [net.ParseIP]: the first dot or colon decides the form. *)
Fixpoint ParseIP_from (env : Env) (s rest : string) : option IP :=
  match rest with
  | EmptyString => None
  | String c rest' =>
      if (c =? ".")%char then parseIPv4 env s
      else if (c =? ":")%char then parseIPv6 env s
      else ParseIP_from env s rest'
  end.

Definition ParseIP (env : Env) (s : string) : option IP :=
  ParseIP_from env s s.

(** [client.send(bytes)]: the error and what went out. *)
Definition send (env : Env) (client : NSClient) (bytes : list byte)
  : option error * list Datagram :=
  match ParseIP env (Server client) with
  | None => (Some (errors_New "bad network server IP"), [])
  | Some ip =>
      match DialUDP env ip (Port client) with
      | Some err => (Some err, [])
      | None =>
          match Write env ip (Port client) bytes with
          | Some err => (Some err, [])
          | None =>
              (None, [ {| dst := ip; dport := Port client; bytes := bytes |} ])
          end
      end
  end.

Definition toMilliseconds (d : option duration.Duration) : outcome Z :=
  d <- deref d ;;
  Returned
    (uint64 (uint64 (uint64 (duration.Seconds d) * 1000)
             + uint64 (duration.Nanos d) / 1000)).

(** [bytes.Join(s, sep)] *)
Fixpoint bytes_Join (s : list (list byte)) (sep : list byte) : list byte :=
  match s with
  | [] => []
  | [x] => x
  | x :: s' => x ++ sep ++ bytes_Join s' sep
  end.

(** The local variable [packet] of [sendWithPayload] once all its fields
    are assigned. *)
Definition sendWithPayload_packet (env : Env) (payload : list byte)
    (rxInfo : option gw.UplinkRXInfo) (txInfo : option gw.UplinkTXInfo)
  : outcome pfpacket :=
  let phyBase := base64.EncodeToString payload in
  let gps := gw.GetTimeSinceGpsEpoch rxInfo in
  let utc := time_Now_RFC3339 env in
  let mod_ := gw.GetLoraModulationInfo txInfo in
  tmms <- toMilliseconds gps ;;
  tmst <- toMilliseconds gps ;;
  m <- deref mod_ ;;
  Returned
    {| Time := utc;
       TMMS := tmms / 1000;
       TMST := uint32 (tmst / 1000 / 1000);
       Chan := gw.GetChannel rxInfo;
       RFCH := gw.GetRfChain rxInfo;
       Freq := Float32_MHz (gw.GetFrequency txInfo);
       Stat := 1;
       Modu := "LORA";
       DatR := fmt.Sprintf "SF%dBW%d"
                 [fmt.Int (gw.SpreadingFactor m);
                  fmt.Int (gw.GetBandwidth mod_)];
       CorR := gw.GetCodeRate mod_;
       RSSI := gw.GetRssi rxInfo;
       LSNR := gw.GetLoraSnr rxInfo;
       Size := uint32 (Z.of_nat (List.length payload));
       Data := phyBase |}.

(** The local variable [datagram] of [sendWithPayload], or the error with
    which the function returns before building it. *)
Definition sendWithPayload_datagram (env : Env) (payload : list byte)
    (gwMAC : string)
    (rxInfo : option gw.UplinkRXInfo) (txInfo : option gw.UplinkTXInfo)
  : outcome (list byte + error) :=
  packet <- sendWithPayload_packet env payload rxInfo txInfo ;;
  let proto := {| RXPK := [packet] |} in
  match encoding_json.Marshal env (pfproto_json proto) with
  | inr err => Returned (inr err)
  | inl packetJSON =>
      let version := to_byte 2 in
      let token := rand_Int env in
      let tokenlsb := to_byte (Z.land token 255) in
      let tokenmsb := to_byte (Z.shiftr (Z.land token 65280) 8) in
      let id := to_byte 0 in
      let header := [version; tokenmsb; tokenlsb; id] in
      match hex.DecodeString gwMAC with
      | inr err => Returned (inr err)
      | inl gwbytes =>
          let jsonbytes := packetJSON in
          Returned (inl (bytes_Join [header; gwbytes; jsonbytes] []))
      end
  end.

(** [client.sendWithPayload(payload, gwMAC, rxInfo, txInfo)]: how the call
    ends and what went out on the network. *)
Definition sendWithPayload (env : Env) (client : NSClient)
    (payload : list byte) (gwMAC : string)
    (rxInfo : option gw.UplinkRXInfo) (txInfo : option gw.UplinkTXInfo)
  : outcome (option error) * list Datagram :=
  match sendWithPayload_datagram env payload gwMAC rxInfo txInfo with
  | Panicked p => (Panicked p, [])
  | Returned (inr err) => (Returned (Some err), [])
  | Returned (inl datagram) =>
      let (_, out) := send env client datagram in
      (Returned None, out)
  end.

End lds.

(* ================================================================= *)
(** ** Package main: the forwarder form *)

Module main.

Record gateway : Type := { MAC : string; BridgeVersion : string }.

Record forwarder : Type := { Server : string; Port : string }.

(** [tomlConfig], without the sections the forwarder does not read. *)
Record tomlConfig : Type := { Forwarder : forwarder; GW : gateway }.

(** The package-level variables and the goroutines running. *)
Record Globals : Type :=
  { config : tomlConfig;
    cNSClient : lds.NSClient;
    goroutines : list lds.Goroutine }.

(** The method that [forwarderConnect] calls,
    [cNSClient.Connect(config.GW.MAC, onIncomingDownlink)]: a [Connect] of
    two arguments.  The [Connect] of [lds/udp.go] takes the handler alone,
    so the one called is taken as given: from the client, the gateway MAC
    and the handler, the error it returns, the client after the call and
    the goroutines it starts. *)
Definition NSClient_Connect : Type :=
  lds.NSClient -> string -> udpPacketCallback
  -> option error * lds.NSClient * list lds.Goroutine.

(** [forwarderConnect()] *)
Definition forwarderConnect (Connect : NSClient_Connect)
    (onIncomingDownlink : udpPacketCallback)
    (g : Globals) : option error * Globals :=
  let (port, err) := strconv.Atoi (Port (Forwarder (config g))) in
  match err with
  | Some err => (Some err, g)
  | None =>
      let client :=
        {| lds.Server := Server (Forwarder (config g));
           lds.Port := lds.Port (cNSClient g);
           lds.connected := lds.connected (cNSClient g);
           lds.udpEvents := lds.udpEvents (cNSClient g) |} in
      let client :=
        {| lds.Server := lds.Server client;
           lds.Port := port;
           lds.connected := lds.connected client;
           lds.udpEvents := lds.udpEvents client |} in
      let '(_, client, started) :=
        Connect client (MAC (GW (config g))) onIncomingDownlink in
      (None,
       {| config := config g;
          cNSClient := client;
          goroutines := goroutines g ++ started |})
  end.

End main.

(* ================================================================= *)
(** ** Classes of text named in the statements *)

(** The number syntax of a port: decimal digits, at least one, after an
    optional sign. *)
Definition is_digit (c : ascii) : bool :=
  let n := N_of_ascii c in ((48 <=? n) && (n <=? 57))%N.

Fixpoint all_digits (s : string) : bool :=
  match s with
  | EmptyString => true
  | String c s' => is_digit c && all_digits s'
  end.

Definition decimal_number (s : string) : bool :=
  match s with
  | EmptyString => false
  | String c s' =>
      if ((c =? "+") || (c =? "-"))%char
      then negb (s' =? "")%string && all_digits s'
      else all_digits s
  end.

(** Hexadecimal text: hexadecimal digits, an even number of them. *)
Definition is_hex_digit (c : ascii) : bool :=
  let n := Z.of_N (N_of_ascii c) in
  ((48 <=? n) && (n <=? 57)) || ((97 <=? n) && (n <=? 102))
  || ((65 <=? n) && (n <=? 70)).

Fixpoint valid_hex (s : string) : bool :=
  match s with
  | EmptyString => true
  | String _ EmptyString => false
  | String p (String q rest) => is_hex_digit p && is_hex_digit q && valid_hex rest
  end.

(* ================================================================= *)
(** ** Sample inputs *)

(** An environment for examples: strings quoted without escapes, floats
    printed as a fixed text, every dotted address read as 127.0.0.1, every
    network call succeeding, the listener bound. *)
Definition sample_env : Env :=
  {| encodeString := fun s => (encoding_json.quote ++ s ++ encoding_json.quote)%string;
     formatFloat32 := fun _ => "868.1";
     formatFloat64 := fun _ => "7.5";
     parseIPv4 := fun _ => Some [x7f; x00; x00; x01];
     parseIPv6 := fun _ => None;
     DialUDP := fun _ _ => None;
     Write := fun _ _ _ => None;
     time_Now_RFC3339 := "2020-03-01T12:00:00Z";
     rand_Int := 43981;
     Serve := fun _ => None |}.

(** Metadata of one uplink for examples: channel 2, 868.1 MHz, SF7 at
    125 kHz, GPS time 1 s and 500 ms. *)
Definition sample_rxInfo : option gw.UplinkRXInfo :=
  Some {| gw.TimeSinceGpsEpoch :=
            Some {| duration.Seconds := 1; duration.Nanos := 500000000 |};
          gw.Rssi := -57;
          gw.LoraSnr := Float64frombits 4620130267728707584;
          gw.Channel := 2;
          gw.RfChain := 1 |}.

Definition sample_txInfo : option gw.UplinkTXInfo :=
  Some {| gw.Frequency := 868100000;
          gw.ModulationInfo :=
            Some (gw.UplinkTXInfo_LoraModulationInfo
                    (Some {| gw.Bandwidth := 125;
                             gw.SpreadingFactor := 7;
                             gw.CodeRate := "4/5" |})) |}.

Definition sample_client : lds.NSClient :=
  {| lds.Server := "127.0.0.1";
     lds.Port := 1700;
     lds.connected := false;
     lds.udpEvents := {| evio.Data := None |} |}.

(** Two stand-ins for the [Connect] that [forwarderConnect] calls: the
    [Connect] of [lds/udp.go] with the gateway MAC left aside, and one that
    fails without touching the client. *)
Definition sample_Connect : main.NSClient_Connect :=
  fun client _ onReceive => lds.Connect client onReceive.


(** A client whose server is not an IP address. *)
Definition unroutable_client : lds.NSClient :=
  {| lds.Server := "not-an-ip";
     lds.Port := 1700;
     lds.connected := false;
     lds.udpEvents := {| evio.Data := None |} |}.

(** The sample environment with the UDP port taken: [evio.Serve] comes back
    at once with the error of the failed bind. *)
Definition port_in_use_env : Env :=
  {| encodeString := encodeString sample_env;
     formatFloat32 := formatFloat32 sample_env;
     formatFloat64 := formatFloat64 sample_env;
     parseIPv4 := parseIPv4 sample_env;
     parseIPv6 := parseIPv6 sample_env;
     DialUDP := DialUDP sample_env;
     Write := Write sample_env;
     time_Now_RFC3339 := time_Now_RFC3339 sample_env;
     rand_Int := rand_Int sample_env;
     Serve := fun _ => Some (net_OpError "listen") |}.

(** The sample reception, one second after the GPS epoch. *)
Definition one_second_rxInfo : option gw.UplinkRXInfo :=
  Some {| gw.TimeSinceGpsEpoch :=
            Some {| duration.Seconds := 1; duration.Nanos := 0 |};
          gw.Rssi := -57;
          gw.LoraSnr := Float64frombits 4620130267728707584;
          gw.Channel := 2;
          gw.RfChain := 1 |}.

(** A header struct like [data], with exported field names. *)
Definition exported_fields : list binary.StructField :=
  [ {| binary.Name := "Version"; binary.Type_ := binary.Int8 |};
    {| binary.Name := "Token";   binary.Type_ := binary.Int16 |};
    {| binary.Name := "ID";      binary.Type_ := binary.Int8 |} ].

(* ================================================================= *)
(** ** strings: [strings.Contains] *)

Module strings.

Fixpoint HasPrefix (s prefix : string) : bool :=
  match prefix with
  | EmptyString => true
  | String c prefix' =>
      match s with
      | EmptyString => false
      | String d s' => (c =? d)%char && HasPrefix s' prefix'
      end
  end.

Fixpoint Contains (s substr : string) : bool :=
  HasPrefix s substr
  || match s with
     | EmptyString => false
     | String _ s' => Contains s' substr
     end.

End strings.

(* ================================================================= *)
(** ** Package main: the console writer *)

Module main_output.

(** This holds the "console" visible text, line number and history (so we
    can dump everything even when console has been cleared).  [Counter] is
    an [int] of 64 bits. *)
Record outputWriter : Type :=
  { Text : string; Counter : Z; History : string }.

Fixpoint zeros (n : nat) : string :=
  match n with
  | O => EmptyString
  | S n' => String "0" (zeros n')
  end.

(** The verb [%05d]: the decimal digits with zeros in front up to a width
    of five, a minus sign counting in the width and coming first. *)
Definition Sprintf_05d (z : Z) : string :=
  let digits := fmt.decimal (Z.abs z) in
  let sign := if z <? 0 then "-" else EmptyString in
  (sign ++ zeros (5 - String.length sign - String.length digits)
   ++ digits)%string.

(** Write just appends to text and history, using the counter as line
    number for the text.  The writer after the call and the two results.
    [fmt.Sprintf("%s%05d  %s", o.Text, o.Counter, string(p))] is the text,
    the padded counter, two spaces and the bytes written. *)
Definition Write (o : outputWriter) (p : list byte)
  : outputWriter * (Z * option error) :=
  let counter := signed 64 (Counter o + 1) in
  let text :=
    (Text o ++ Sprintf_05d counter ++ "  " ++ string_of_list_byte p)%string in
  let history :=
    fmt.Sprintf "%s%s"
      [fmt.Str (History o); fmt.Str (string_of_list_byte p)] in
  ({| Text := text; Counter := counter; History := history |},
   (Z.of_nat (List.length p), None)).

(** A run of calls of [Write], one per element: the writer at the end and
    the byte counts reported. *)
Fixpoint Writes (o : outputWriter) (ps : list (list byte))
  : outputWriter * list Z :=
  match ps with
  | [] => (o, [])
  | p :: ps' =>
      let '(o1, (n, _)) := Write o p in
      let '(o2, ns) := Writes o1 ps' in
      (o2, n :: ns)
  end.

End main_output.

(* ================================================================= *)
(** ** Package main: saving the configuration *)

Module main_conf.

(** What the file system and the TOML encoder answer. *)
Record Files : Type :=
  { (* os.Create(name): the error *)
    os_Create : string -> option error;
    (* toml.NewEncoder(f).Encode(config): the error *)
    toml_Encode : main.tomlConfig -> option error }.

(** [exportConf(filename)]: the value of [*confFile] after the call and the
    names of the files created. *)
Definition exportConf (fs : Files) (config : main.tomlConfig)
    (filename : string) (confFile : string) : string * list string :=
  let filename :=
    if negb (strings.Contains filename ".toml")
    then fmt.Sprintf "%s.toml" [fmt.Str filename]
    else filename in
  match os_Create fs filename with
  | Some err => (confFile, [])
  | None =>
      match toml_Encode fs config with
      | Some err => (confFile, [filename])
      | None => (filename, [filename])
      end
  end.

End main_conf.

(* ================================================================= *)
(** ** Package main: the MQTT connection *)

(** [github.com/eclipse/paho.mqtt.golang], as far as [connectClient] drives
    it: the options record what was passed to [AddBroker], [SetUsername],
    [SetPassword], [SetAutoReconnect] and [SetClientID]. *)
Module paho.

Record ClientOptions : Type :=
  { Broker : string;
    Username : string;
    Password : string;
    AutoReconnect : bool;
    ClientID : string }.

Record Client : Type := { options : ClientOptions }.

Record Subscription : Type :=
  { topic : string; qos : Z; callback : udpPacketCallback }.

End paho.

Module main_mqtt.

Record mqtt : Type :=
  { Server : string;
    User : string;
    Password : string;
    DownlinkTopic : string;
    UplinkTopic : string }.

(** What the broker and the clock answer. *)
Record Broker : Type :=
  { (* time.Now().UnixNano() *)
    UnixNano : Z;
    (* token := client.Connect(); token.Wait(); token.Error() *)
    Connect_error : paho.ClientOptions -> option error }.

(** [connectClient()]: the error, the package variable [mqttClient] after
    the call and the subscriptions made.  [config.MQTT] is passed as
    [cfg], beside the configuration that holds [config.GW]. *)
Definition connectClient (env : Broker) (cfg : mqtt)
    (config : main.tomlConfig) (onIncomingDownlink : udpPacketCallback)
    (mqttClient : option paho.Client)
  : option error * option paho.Client * list paho.Subscription :=
  (* Connect to the broker *)
  let opts :=
    {| paho.Broker := Server cfg;
       paho.Username := User cfg;
       paho.Password := Password cfg;
       paho.AutoReconnect := true;
       paho.ClientID := fmt.Sprintf "lds-%d" [fmt.Int (UnixNano env)] |} in
  match Connect_error env opts with
  | Some err =>
      (Some err, Some {| paho.options := opts |}, [])
  | None =>
      (None, Some {| paho.options := opts |},
       [ {| paho.topic :=
              fmt.Sprintf (DownlinkTopic cfg)
                [fmt.Str (main.MAC (main.GW config))];
            paho.qos := 1;
            paho.callback := fun payload => onIncomingDownlink payload |} ])
  end.

End main_mqtt.

(** A file system and a broker for examples: every call succeeds. *)
Definition sample_files : main_conf.Files :=
  {| main_conf.os_Create := fun _ => None;
     main_conf.toml_Encode := fun _ => None |}.

Definition sample_broker : main_mqtt.Broker :=
  {| main_mqtt.UnixNano := 1583064000000000000;
     main_mqtt.Connect_error := fun _ => None |}.

(** A broker that refuses every connection, one nanosecond later. *)
Definition refusing_broker : main_mqtt.Broker :=
  {| main_mqtt.UnixNano := 1583064000000000001;
     main_mqtt.Connect_error := fun _ => Some (net_OpError "dial") |}.

Definition sample_mqtt : main_mqtt.mqtt :=
  {| main_mqtt.Server := "tcp://127.0.0.1:1883";
     main_mqtt.User := "lds";
     main_mqtt.Password := "secret";
     main_mqtt.DownlinkTopic := "gateway/%s/command/down";
     main_mqtt.UplinkTopic := "gateway/%s/event/up" |}.

Definition sample_config : main.tomlConfig :=
  {| main.Forwarder := {| main.Server := "127.0.0.1"; main.Port := "1700" |};
     main.GW := {| main.MAC := "0011223344556677";
                   main.BridgeVersion := "3" |} |}.

(* ================================================================= *)
(** * Properties *)

(* ----------------------------------------------------------------- *)
(** ** Bytes *)

Lemma u8_range (b : byte) : 0 <= u8 b < 256.
Proof.
  unfold u8. pose proof (Byte.to_N_bounded b) as H. lia.
Qed.

Lemma to_byte_u8 (b : byte) : to_byte (u8 b) = b.
Proof.
  unfold to_byte. rewrite Z.mod_small by apply u8_range.
  unfold u8. rewrite N2Z.id, Byte.of_to_N. reflexivity.
Qed.

Lemma u8_to_byte (z : Z) : u8 (to_byte z) = z mod 256.
Proof.
  unfold to_byte, u8.
  assert (R : 0 <= z mod 256 < 256) by (apply Z.mod_pos_bound; lia).
  destruct (Byte.of_N (Z.to_N (z mod 256))) as [b|] eqn:E.
  - apply Byte.to_of_N in E. rewrite E. lia.
  - apply Byte.of_N_None_iff in E. lia.
Qed.

Lemma to_byte_eq (z : Z) (b : byte) : z mod 256 = u8 b -> to_byte z = b.
Proof.
  intros H. rewrite <- (to_byte_u8 b). unfold to_byte. rewrite H.
  rewrite (Z.mod_small (u8 b)) by apply u8_range. reflexivity.
Qed.

(* ----------------------------------------------------------------- *)
(** ** Shifts and masks as arithmetic *)

Lemma land_shiftl_low (hi lo k : Z) :
  0 <= k -> 0 <= lo < 2 ^ k -> Z.land (Z.shiftl hi k) lo = 0.
Proof.
  intros Hk Hlo. apply Z.bits_inj'. intros n Hn.
  rewrite Z.land_spec, Z.bits_0.
  destruct (Z.lt_ge_cases n k) as [L | G].
  - rewrite Z.shiftl_spec_low by lia. reflexivity.
  - rewrite <- (Z.mod_small lo (2 ^ k)) by lia.
    rewrite Z.mod_pow2_bits_high by lia. apply andb_false_r.
Qed.

Lemma lor_disjoint (x lo k : Z) :
  0 <= k -> x mod 2 ^ k = 0 -> 0 <= lo < 2 ^ k -> Z.lor x lo = x + lo.
Proof.
  intros Hk Hx Hlo.
  assert (E : x = Z.shiftl (x / 2 ^ k) k).
  { rewrite Z.shiftl_mul_pow2 by lia.
    pose proof (Z.div_mod x (2 ^ k)) as D. lia. }
  assert (L : Z.land x lo = 0) by (rewrite E; apply land_shiftl_low; lia).
  pose proof (Z.add_lor_land x lo) as A. lia.
Qed.

Ltac to_arith :=
  repeat rewrite Z.shiftl_mul_pow2 by lia;
  repeat rewrite Z.shiftr_div_pow2 by lia;
  change 63 with (Z.ones 6);
  repeat rewrite Z.land_ones by lia;
  change (2 ^ 0) with 1; change (2 ^ 6) with 64; change (2 ^ 8) with 256;
  change (2 ^ 12) with 4096; change (2 ^ 16) with 65536;
  change (2 ^ 18) with 262144.

Lemma pack3 (a b c : Z) :
  0 <= a < 256 -> 0 <= b < 256 -> 0 <= c < 256 ->
  Z.lor (Z.lor (Z.shiftl a 16) (Z.shiftl b 8)) c = a * 65536 + b * 256 + c.
Proof.
  intros Ha Hb Hc.
  rewrite (lor_disjoint (Z.shiftl a 16) (Z.shiftl b 8) 16);
    to_arith; try lia.
  - rewrite (lor_disjoint _ c 8); change (2 ^ 8) with 256; try lia.
    Z.div_mod_to_equations. lia.
  - Z.div_mod_to_equations. lia.
Qed.

Lemma unpack4 (d0 d1 d2 d3 : Z) :
  0 <= d0 < 64 -> 0 <= d1 < 64 -> 0 <= d2 < 64 -> 0 <= d3 < 64 ->
  Z.lor (Z.lor (Z.lor (Z.shiftl d0 18) (Z.shiftl d1 12)) (Z.shiftl d2 6)) d3
  = d0 * 262144 + d1 * 4096 + d2 * 64 + d3.
Proof.
  intros H0 H1 H2 H3.
  rewrite (lor_disjoint (Z.shiftl d0 18) (Z.shiftl d1 12) 18);
    to_arith; try lia; [| Z.div_mod_to_equations; lia].
  rewrite (lor_disjoint _ (d2 * 64) 12);
    change (2 ^ 12) with 4096; try lia; [| Z.div_mod_to_equations; lia].
  rewrite (lor_disjoint _ d3 6);
    change (2 ^ 6) with 64; try lia. Z.div_mod_to_equations; lia.
Qed.

Lemma regroup (val : Z) :
  0 <= val < 16777216 ->
  (val / 262144) mod 64 * 262144 + (val / 4096) mod 64 * 4096
  + (val / 64) mod 64 * 64 + val mod 64 = val.
Proof. intros H. Z.div_mod_to_equations. lia. Qed.

Lemma sextet_range (val k : Z) : 0 <= (val / 2 ^ k) mod 64 < 64.
Proof. apply Z.mod_pos_bound. lia. Qed.

(* ----------------------------------------------------------------- *)
(** ** base64: decoding undoes encoding *)

(** Every index of the alphabet is found again by [decodeMap], and no
    letter of the alphabet is the padding or a line break. *)
Lemma sextet_table :
  forallb
    (fun n =>
       let c := base64.encode (Z.of_nat n) in
       match base64.decodeMap c with
       | Some d => d =? Z.of_nat n
       | None => false
       end && negb (base64.is_pad c) && negb (base64.is_newline c))
    (seq 0 64) = true.
Proof. vm_compute. reflexivity. Qed.

Lemma encode_spec (d : Z) :
  0 <= d < 64 ->
  base64.decodeMap (base64.encode d) = Some d
  /\ base64.is_pad (base64.encode d) = false
  /\ base64.is_newline (base64.encode d) = false.
Proof.
  intros Hd. pose proof sextet_table as T.
  rewrite forallb_forall in T. specialize (T (Z.to_nat d)).
  rewrite Z2Nat.id in T by lia.
  assert (I : In (Z.to_nat d) (seq 0 64)) by (apply in_seq; lia).
  apply T in I. cbv zeta in I.
  apply andb_true_iff in I. destruct I as [I N].
  apply andb_true_iff in I. destruct I as [D P].
  apply negb_true_iff in N. apply negb_true_iff in P.
  destruct (base64.decodeMap (base64.encode d)) as [d'|]; [|discriminate].
  apply Z.eqb_eq in D. subst d'. auto.
Qed.

Lemma sextet_spec (val k : Z) :
  0 <= k ->
  let d := (val / 2 ^ k) mod 64 in
  base64.decodeMap (base64.sextet val k) = Some d
  /\ base64.is_pad (base64.sextet val k) = false
  /\ base64.is_newline (base64.sextet val k) = false.
Proof.
  intros Hk d. unfold base64.sextet.
  rewrite Z.shiftr_div_pow2 by lia. change 63 with (Z.ones 6).
  rewrite Z.land_ones by lia. change (2 ^ 6) with 64.
  apply encode_spec. apply Z.mod_pos_bound. lia.
Qed.

Lemma pad_spec :
  base64.decodeMap base64.StdPadding = None
  /\ base64.is_pad base64.StdPadding = true
  /\ base64.is_newline base64.StdPadding = false.
Proof. vm_compute. auto. Qed.

(** Induction over a list three elements at a time, as the encoder reads
    it. *)
Lemma list_ind3 {A} (P : list A -> Prop) :
  P [] -> (forall a, P [a]) -> (forall a b, P [a; b]) ->
  (forall a b c l, P l -> P (a :: b :: c :: l)) ->
  forall l, P l.
Proof.
  intros H0 H1 H2 H3.
  fix IH 1. intros [|a [|b [|c l]]];
    [apply H0 | apply H1 | apply H2 | apply H3; apply IH].
Qed.

Ltac no_newline :=
  repeat match goal with
    | |- context [base64.is_newline (base64.sextet ?v ?k)] =>
        rewrite (proj2 (proj2 (sextet_spec v k ltac:(lia))))
    | |- context [base64.is_newline base64.StdPadding] =>
        rewrite (proj2 (proj2 pad_spec))
    end.

Lemma strip_newlines_EncodeToString (src : list byte) :
  base64.strip_newlines (base64.EncodeToString src) = base64.EncodeToString src.
Proof.
  induction src as [|a|a b|a b c l IH] using list_ind3;
    cbn [base64.EncodeToString base64.strip_newlines].
  - reflexivity.
  - no_newline. reflexivity.
  - no_newline. reflexivity.
  - no_newline. rewrite IH. reflexivity.
Qed.

Lemma decodeQuanta_step (c0 c1 c2 c3 : ascii) (rest : string) :
  base64.decodeQuanta (String c0 (String c1 (String c2 (String c3 rest)))) =
  match base64.decodeMap c0, base64.decodeMap c1 with
  | Some d0, Some d1 =>
      if base64.is_pad c2 then
        if base64.is_pad c3 && base64.is_empty rest then
          let val := Z.lor (Z.shiftl d0 18) (Z.shiftl d1 12) in
          Some [to_byte (Z.shiftr val 16)]
        else None
      else
        match base64.decodeMap c2 with
        | None => None
        | Some d2 =>
            if base64.is_pad c3 then
              if base64.is_empty rest then
                let val := Z.lor (Z.lor (Z.shiftl d0 18) (Z.shiftl d1 12))
                                 (Z.shiftl d2 6) in
                Some [to_byte (Z.shiftr val 16); to_byte (Z.shiftr val 8)]
              else None
            else
              match base64.decodeMap c3 with
              | None => None
              | Some d3 =>
                  let val :=
                    Z.lor (Z.lor (Z.lor (Z.shiftl d0 18) (Z.shiftl d1 12))
                                 (Z.shiftl d2 6)) d3 in
                  match base64.decodeQuanta rest with
                  | Some bs =>
                      Some (to_byte (Z.shiftr val 16)
                            :: to_byte (Z.shiftr val 8)
                            :: to_byte val :: bs)
                  | None => None
                  end
              end
        end
  | _, _ => None
  end.
Proof. reflexivity. Qed.

Ltac sextets :=
  repeat match goal with
    | |- context [base64.decodeMap (base64.sextet ?v ?k)] =>
        rewrite (proj1 (sextet_spec v k ltac:(lia)))
    | |- context [base64.is_pad (base64.sextet ?v ?k)] =>
        rewrite (proj1 (proj2 (sextet_spec v k ltac:(lia))))
    | |- context [base64.is_pad base64.StdPadding] =>
        rewrite (proj1 (proj2 pad_spec))
    end.

Lemma quantum3 (s0 s1 s2 : byte) :
  let val := Z.lor (Z.lor (Z.shiftl (u8 s0) 16) (Z.shiftl (u8 s1) 8)) (u8 s2) in
  let val' :=
    Z.lor (Z.lor (Z.lor (Z.shiftl ((val / 2 ^ 18) mod 64) 18)
                        (Z.shiftl ((val / 2 ^ 12) mod 64) 12))
                 (Z.shiftl ((val / 2 ^ 6) mod 64) 6))
          ((val / 2 ^ 0) mod 64) in
  to_byte (Z.shiftr val' 16) = s0
  /\ to_byte (Z.shiftr val' 8) = s1
  /\ to_byte val' = s2.
Proof.
  intros val val'.
  pose proof (u8_range s0) as R0. pose proof (u8_range s1) as R1.
  pose proof (u8_range s2) as R2.
  assert (V : val = u8 s0 * 65536 + u8 s1 * 256 + u8 s2)
    by (apply pack3; assumption).
  assert (V' : val' = val).
  { unfold val'. rewrite unpack4 by apply sextet_range.
    change (2 ^ 18) with 262144. change (2 ^ 12) with 4096.
    change (2 ^ 6) with 64. change (2 ^ 0) with 1. rewrite Z.div_1_r.
    apply regroup. lia. }
  rewrite V', V. rewrite !Z.shiftr_div_pow2 by lia.
  change (2 ^ 16) with 65536. change (2 ^ 8) with 256.
  repeat split; apply to_byte_eq; Z.div_mod_to_equations; lia.
Qed.

Lemma quantum2 (s0 s1 : byte) :
  let val := Z.lor (Z.shiftl (u8 s0) 16) (Z.shiftl (u8 s1) 8) in
  let val' :=
    Z.lor (Z.lor (Z.shiftl ((val / 2 ^ 18) mod 64) 18)
                 (Z.shiftl ((val / 2 ^ 12) mod 64) 12))
          (Z.shiftl ((val / 2 ^ 6) mod 64) 6) in
  to_byte (Z.shiftr val' 16) = s0 /\ to_byte (Z.shiftr val' 8) = s1.
Proof.
  intros val val'.
  pose proof (u8_range s0) as R0. pose proof (u8_range s1) as R1.
  assert (V : val = u8 s0 * 65536 + u8 s1 * 256 + 0).
  { rewrite <- (pack3 (u8 s0) (u8 s1) 0) by lia.
    rewrite Z.lor_0_r. reflexivity. }
  assert (V' : val' = val).
  { unfold val'. rewrite <- (Z.lor_0_r (Z.lor _ _)).
    rewrite unpack4 by (try apply sextet_range; lia).
    change (2 ^ 18) with 262144. change (2 ^ 12) with 4096.
    change (2 ^ 6) with 64.
    rewrite <- (regroup val) at 4 by lia.
    assert (val mod 64 = 0) by (Z.div_mod_to_equations; lia). lia. }
  rewrite V', V. rewrite !Z.shiftr_div_pow2 by lia.
  change (2 ^ 16) with 65536. change (2 ^ 8) with 256.
  split; apply to_byte_eq; Z.div_mod_to_equations; lia.
Qed.

Lemma quantum1 (s0 : byte) :
  let val := Z.shiftl (u8 s0) 16 in
  let val' := Z.lor (Z.shiftl ((val / 2 ^ 18) mod 64) 18)
                    (Z.shiftl ((val / 2 ^ 12) mod 64) 12) in
  to_byte (Z.shiftr val' 16) = s0.
Proof.
  intros val val'.
  pose proof (u8_range s0) as R0.
  assert (V : val = u8 s0 * 65536)
    by (unfold val; rewrite Z.shiftl_mul_pow2 by lia; reflexivity).
  assert (V' : val' = val).
  { unfold val'.
    rewrite <- (Z.lor_0_r (Z.lor _ _)).
    rewrite <- (Z.lor_0_r (Z.lor (Z.shiftl _ 18) _)).
    change 0 with (Z.shiftl 0 6) at 1.
    rewrite unpack4 by (try apply sextet_range; lia).
    change (2 ^ 18) with 262144. change (2 ^ 12) with 4096.
    rewrite <- (regroup val) at 3 by lia.
    assert (val mod 64 = 0) by (Z.div_mod_to_equations; lia).
    assert ((val / 64) mod 64 = 0) by (Z.div_mod_to_equations; lia). lia. }
  rewrite V', V. rewrite Z.shiftr_div_pow2 by lia.
  change (2 ^ 16) with 65536.
  apply to_byte_eq; Z.div_mod_to_equations; lia.
Qed.

Lemma decodeQuanta_EncodeToString (src : list byte) :
  base64.decodeQuanta (base64.EncodeToString src) = Some src.
Proof.
  induction src as [|a|a b|a b c l IH] using list_ind3;
    cbn [base64.EncodeToString].
  - reflexivity.
  - rewrite decodeQuanta_step. sextets. cbn [andb base64.is_empty].
    cbv zeta. rewrite quantum1. reflexivity.
  - rewrite decodeQuanta_step. sextets. cbn [base64.is_empty].
    cbv zeta. destruct (quantum2 a b) as [E0 E1].
    cbv zeta in E0, E1. rewrite E0, E1. reflexivity.
  - rewrite decodeQuanta_step. sextets. rewrite IH.
    cbv zeta. destruct (quantum3 a b c) as (E0 & E1 & E2).
    cbv zeta in E0, E1, E2. rewrite E0, E1, E2. reflexivity.
Qed.

Lemma base64_roundtrip (src : list byte) :
  base64.DecodeString (base64.EncodeToString src) = Some src.
Proof.
  unfold base64.DecodeString.
  rewrite strip_newlines_EncodeToString. apply decodeQuanta_EncodeToString.
Qed.

(* ----------------------------------------------------------------- *)
(** ** hex and strconv against the text they accept *)

(** Induction over a string two characters at a time. *)
Lemma string_ind2 (P : string -> Prop) :
  P EmptyString -> (forall p, P (String p EmptyString)) ->
  (forall p q rest, P rest -> P (String p (String q rest))) ->
  forall s, P s.
Proof.
  intros H0 H1 H2. fix IH 1. intros [|p [|q rest]];
    [apply H0 | apply H1 | apply H2; apply IH].
Qed.

Lemma fromHexChar_hex_digit (c : ascii) :
  is_hex_digit c = true -> exists v, hex.fromHexChar c = Some v.
Proof.
  unfold is_hex_digit, hex.fromHexChar. cbv zeta.
  destruct ((48 <=? _) && (_ <=? 57)); [eauto|].
  destruct ((97 <=? _) && (_ <=? 102)); [eauto|].
  destruct ((65 <=? _) && (_ <=? 70)); [eauto|]. discriminate.
Qed.

Lemma fromHexChar_not_hex_digit (c : ascii) :
  is_hex_digit c = false -> hex.fromHexChar c = None.
Proof.
  unfold is_hex_digit, hex.fromHexChar. cbv zeta.
  destruct ((48 <=? _) && (_ <=? 57)); [discriminate|].
  destruct ((97 <=? _) && (_ <=? 102)); [discriminate|].
  destruct ((65 <=? _) && (_ <=? 70)); [discriminate|]. reflexivity.
Qed.

Lemma DecodeString_invalid (s : string) :
  valid_hex s = false -> exists e, hex.DecodeString s = inr e.
Proof.
  induction s as [|p|p q rest IH] using string_ind2;
    cbn [valid_hex hex.DecodeString]; intros H.
  - discriminate.
  - destruct (hex.fromHexChar p); eauto.
  - destruct (is_hex_digit p) eqn:HP.
    + destruct (fromHexChar_hex_digit p HP) as [a ->].
      destruct (is_hex_digit q) eqn:HQ.
      * destruct (fromHexChar_hex_digit q HQ) as [b ->].
        destruct (IH H) as [e ->]. eauto.
      * rewrite (fromHexChar_not_hex_digit q HQ). eauto.
    + rewrite (fromHexChar_not_hex_digit p HP). eauto.
Qed.

Lemma DecodeString_valid (s : string) :
  valid_hex s = true ->
  exists bs, hex.DecodeString s = inl bs
             /\ (2 * List.length bs = String.length s)%nat.
Proof.
  induction s as [|p|p q rest IH] using string_ind2;
    cbn [valid_hex hex.DecodeString]; intros H.
  - exists []. auto.
  - discriminate.
  - apply andb_true_iff in H. destruct H as [H HR].
    apply andb_true_iff in H. destruct H as [HP HQ].
    destruct (fromHexChar_hex_digit p HP) as [a ->].
    destruct (fromHexChar_hex_digit q HQ) as [b ->].
    destruct (IH HR) as (bs & -> & L).
    eexists. split; [reflexivity|]. cbn [List.length String.length]. lia.
Qed.

(** MAC ["0011223344556677"] gives the bytes [00 11 22 33 44 55 66 77]. *)
Example DecodeString_MAC :
  hex.DecodeString "0011223344556677"
  = inl [x00; x11; x22; x33; x44; x55; x66; x77].
Proof. reflexivity. Qed.

Lemma digit_not_digit (c : ascii) : is_digit c = false -> strconv.digit c = None.
Proof.
  unfold is_digit, strconv.digit. cbv zeta. intros H.
  destruct (0 <=? Z.of_N (N_of_ascii c) - 48) eqn:A;
  destruct (Z.of_N (N_of_ascii c) - 48 <=? 9) eqn:B; try reflexivity.
  apply Z.leb_le in A, B.
  apply andb_false_iff in H. destruct H as [H | H]; apply N.leb_gt in H; lia.
Qed.

Lemma Atoi_loop_not_all_digits (s : string) :
  all_digits s = false -> forall n, strconv.Atoi_loop n s = None.
Proof.
  induction s as [|c s IH]; cbn [all_digits strconv.Atoi_loop]; intros H n.
  - discriminate.
  - destruct (is_digit c) eqn:D.
    + cbn [andb] in H. destruct (strconv.digit c); auto.
    + rewrite (digit_not_digit c D). reflexivity.
Qed.

(** The scan of [ParseUint] ends in an error on text that is not all
    digits: the first bad byte, or an overflow met before it. *)
Lemma ParseUint_loop_not_all_digits (s : string) :
  all_digits s = false ->
  forall n,
    strconv.ParseUint_loop n s = (0, Some strconv.ErrSyntax)
    \/ strconv.ParseUint_loop n s
       = (strconv.maxUint64, Some strconv.ErrRange).
Proof.
  induction s as [|c s IH]; cbn [all_digits strconv.ParseUint_loop]; intros H n.
  - discriminate.
  - destruct (is_digit c) eqn:D.
    + cbn [andb] in H. destruct (strconv.digit c) as [d|]; [|auto].
      destruct (strconv.maxUint64 / 10 + 1 <=? n); [auto|].
      cbv zeta. destruct (strconv.maxUint64 <? n * 10 + d); auto.
    + rewrite (digit_not_digit c D). auto.
Qed.

Lemma ParseUint_not_all_digits (s : string) :
  s = EmptyString \/ all_digits s = false ->
  strconv.ParseUint s = (0, Some strconv.ErrSyntax)
  \/ strconv.ParseUint s = (strconv.maxUint64, Some strconv.ErrRange).
Proof.
  intros [-> | H]; [left; reflexivity|].
  destruct s as [|c s']; [discriminate|].
  apply (ParseUint_loop_not_all_digits _ H).
Qed.

(** Text that is not a decimal number is refused by [strconv.Atoi], on
    either of its paths. *)
Lemma Atoi_not_decimal (s : string) :
  decimal_number s = false ->
  exists v k, strconv.Atoi s = (v, Some (strconv.NumError "Atoi" s k)).
Proof.
  intros H.
  assert (B : s = EmptyString
              \/ exists c s', s = String c s'
                   /\ let body := if strconv.is_sign c then s' else s in
                      body = EmptyString \/ all_digits body = false).
  { destruct s as [|c s']; [auto|]. right. exists c, s'. split; [reflexivity|].
    unfold decimal_number in H. unfold strconv.is_sign. cbv zeta.
    destruct ((c =? "+") || (c =? "-"))%char; [|auto].
    destruct s' as [|c' s'']; [auto|]. right. exact H. }
  unfold strconv.Atoi.
  destruct ((0 <? String.length s) && (String.length s <? 19))%nat.
  - destruct B as [-> | (c & s' & -> & B)].
    + exists 0, strconv.ErrSyntax. reflexivity.
    + cbv zeta in B.
      destruct (if strconv.is_sign c then s' else String c s')
        as [|c0 body] eqn:E.
      * exists 0, strconv.ErrSyntax. reflexivity.
      * destruct B as [B | B]; [discriminate|].
        rewrite (Atoi_loop_not_all_digits _ B).
        exists 0, strconv.ErrSyntax. reflexivity.
  - destruct B as [-> | (c & s' & -> & B)].
    + exists 0, strconv.ErrSyntax. reflexivity.
    + unfold strconv.ParseInt. cbv zeta in B |- *.
      destruct (ParseUint_not_all_digits _ B) as [-> | ->].
      * exists 0, strconv.ErrSyntax. reflexivity.
      * destruct (c =? "-")%char;
          eexists; exists strconv.ErrRange; reflexivity.
Qed.

Example Atoi_1700 : strconv.Atoi "1700" = (1700, None).
Proof. reflexivity. Qed.

(** An overflow met before the bad byte is reported as a range error. *)
Example Atoi_overflow_then_letter :
  snd (strconv.Atoi "184467440737095516160x")
  = Some (strconv_ErrRange "Atoi" "184467440737095516160x").
Proof. reflexivity. Qed.

(* ----------------------------------------------------------------- *)
(** ** fmt *)

Lemma append_empty_r (s : string) : (s ++ "")%string = s.
Proof. induction s as [|c s IH]; cbn; [|rewrite IH]; reflexivity. Qed.

Lemma Sprintf_datr (sf bw : Z) :
  fmt.Sprintf "SF%dBW%d" [fmt.Int sf; fmt.Int bw]
  = ("SF" ++ fmt.decimal sf ++ "BW" ++ fmt.decimal bw)%string.
Proof.
  change (fmt.Sprintf "SF%dBW%d" [fmt.Int sf; fmt.Int bw])
    with ("SF" ++ fmt.decimal sf ++ "BW" ++ fmt.decimal bw ++ "")%string.
  rewrite append_empty_r. reflexivity.
Qed.

(* ----------------------------------------------------------------- *)
(** ** [UDPParsePacket] *)

(** A packet shorter than the header is answered with the reader's error
    and [false]; the map is left alone. *)
Lemma UDPParsePacket_short (packet : list byte) (result : jsonMap) :
  (List.length packet < 4)%nat ->
  exists e, UDPParsePacket packet result = Returned (false, Some e, result).
Proof.
  intros H. destruct packet as [|b0 [|b1 [|b2 [|b3 rest]]]];
    cbn in H; try lia; eexists; reflexivity.
Qed.

(** A packet that holds a whole header never gets past [binary.Read]: the
    fields of [data] are not exported. *)
Lemma UDPParsePacket_full_header (packet : list byte) (result : jsonMap) :
  (4 <= List.length packet)%nat ->
  UDPParsePacket packet result = Panicked (reflect_unexported_field "SetInt").
Proof.
  intros H. destruct packet as [|b0 [|b1 [|b2 [|b3 rest]]]];
    cbn in H; try lia.
  reflexivity.
Qed.

(** Whenever the function returns, it reports no downlink. *)
Lemma UDPParsePacket_never_downlink (packet : list byte) (result m : jsonMap)
    (isDownlink : bool) (err : option error) :
  UDPParsePacket packet result = Returned (isDownlink, err, m) ->
  isDownlink = false.
Proof.
  intros H.
  destruct (Nat.lt_ge_cases (List.length packet) 4) as [L | G].
  - destruct (UDPParsePacket_short packet result L) as [e E].
    rewrite E in H. congruence.
  - rewrite (UDPParsePacket_full_header packet result G) in H. discriminate.
Qed.

(** With the same three fields exported, the rest of the function is
    reached: no error, no downlink, and the map emptied exactly when the
    fourth byte is 0x03. *)
Lemma UDPParsePacket_reading_exported (b0 b1 b2 b3 : byte) (rest : list byte)
    (result : jsonMap) :
  UDPParsePacket_reading exported_fields (b0 :: b1 :: b2 :: b3 :: rest) result
  = Returned (false, None, if Byte.eqb b3 x03 then [] else result).
Proof.
  unfold UDPParsePacket_reading, binary.Read, binary.ReadFull.
  change (binary.dataSize exported_fields) with 4%nat.
  cbn [Nat.eqb List.length Nat.ltb Nat.leb firstn bind binary.value
       exported_fields binary.blank binary.exported binary.Name binary.Type_
       binary.sizeof skipn].
  destruct b3; reflexivity.
Qed.

(** C1.  A datagram of four bytes whose message-id byte is 0x00, not
    0x03: the call does not return [isDownlink = false], it panics inside
    [binary.Read], which stores into the unexported fields of [data]
    through reflection.  (Packets shorter than four bytes do come back with
    an error: [UDPParsePacket_short].) *)
Theorem UDPParsePacket_panics_on_other_id :
  UDPParsePacket [x02; x12; x34; x00] []
  = Panicked (reflect_unexported_field "SetInt").
Proof. reflexivity. Qed.

(** C2.  A PULL_RESP datagram, message-id byte 0x03 and a JSON body: the
    call does not return [(false, nil)] with an empty map, it panics
    inside [binary.Read] before the message id is looked at. *)
Theorem UDPParsePacket_panics_on_PULL_RESP :
  UDPParsePacket ([x02; x12; x34; x03] ++ list_byte_of_string "{}") []
  = Panicked (reflect_unexported_field "SetInt").
Proof. reflexivity. Qed.

(* ----------------------------------------------------------------- *)
(** ** [Connect] and [forwarderConnect] *)

(** [Connect] has one outcome for every client and handler. *)
Lemma Connect_always_connected (client : lds.NSClient)
    (onReceive : udpPacketCallback) :
  fst (fst (lds.Connect client onReceive)) = None
  /\ lds.IsConnected (snd (fst (lds.Connect client onReceive))) = true.
Proof. split; reflexivity. Qed.

(** C4.  The client on port 1700 while that port cannot be bound: the
    goroutine's [evio.Serve] comes back with the bind error, and
    [Connect] has returned [nil] with [IsConnected()] true. *)
Theorem Connect_reports_success_when_bind_fails :
  let '(err, client, started) :=
    lds.Connect sample_client (fun _ => None) in
  err = None
  /\ lds.IsConnected client = true
  /\ map (lds.Serve_result port_in_use_env) started
     = [Some (net_OpError "listen")].
Proof. cbn. auto. Qed.

(** Any error of [strconv.Atoi] is returned with nothing else done,
    whatever the [Connect] at hand would do. *)
Lemma forwarderConnect_Atoi_error (Connect : main.NSClient_Connect)
    (onIncomingDownlink : udpPacketCallback)
    (g : main.Globals) (err : error) :
  snd (strconv.Atoi (main.Port (main.Forwarder (main.config g)))) = Some err ->
  main.forwarderConnect Connect onIncomingDownlink g = (Some err, g).
Proof.
  intros H. unfold main.forwarderConnect.
  destruct (strconv.Atoi _) as [port e]. cbn [snd] in H. rewrite H.
  reflexivity.
Qed.

(** C9.  When the configured port is not a decimal number,
    [forwarderConnect] returns the error of [strconv.Atoi] (a syntax error,
    or a range error when the digits before the bad character already
    overflow) and the package state is what it was: the client's fields and
    its connection flag are untouched and no goroutine has been started.
    This holds of every [Connect] the function could call, with one and the
    same result: [Connect] was not called and nothing was bound. *)
Theorem forwarderConnect_bad_port (Connect : main.NSClient_Connect)
    (onIncomingDownlink : udpPacketCallback) (g : main.Globals) :
  decimal_number (main.Port (main.Forwarder (main.config g))) = false ->
  exists k,
    main.forwarderConnect Connect onIncomingDownlink g
    = (Some (strconv.NumError "Atoi"
               (main.Port (main.Forwarder (main.config g))) k), g).
Proof.
  intros H. destruct (Atoi_not_decimal _ H) as (v & k & E).
  exists k. apply forwarderConnect_Atoi_error. rewrite E. reflexivity.
Qed.

Lemma forwarderConnect_bad_port_witness :
  let g := {| main.config :=
                {| main.Forwarder :=
                     {| main.Server := "127.0.0.1"; main.Port := "17oo" |};
                   main.GW :=
                     {| main.MAC := "0011223344556677";
                        main.BridgeVersion := "3" |} |};
              main.cNSClient := sample_client;
              main.goroutines := [] |} in
  exists k,
    main.forwarderConnect sample_Connect (fun _ => None) g
    = (Some (strconv.NumError "Atoi" "17oo" k), g).
Proof.
  intros g.
  apply (forwarderConnect_bad_port sample_Connect (fun _ => None) g).
  reflexivity.
Defined.

(** A numeric port reaches [Connect]; were it the [Connect] of
    [lds/udp.go], the client would be configured, marked connected, and one
    listener goroutine started. *)
Example forwarderConnect_1700 :
  let g := {| main.config :=
                {| main.Forwarder :=
                     {| main.Server := "127.0.0.1"; main.Port := "1700" |};
                   main.GW :=
                     {| main.MAC := "0011223344556677";
                        main.BridgeVersion := "3" |} |};
              main.cNSClient := unroutable_client;
              main.goroutines := [] |} in
  let '(err, g') :=
    main.forwarderConnect sample_Connect (fun _ => None) g in
  err = None
  /\ lds.Server (main.cNSClient g') = "127.0.0.1"
  /\ lds.Port (main.cNSClient g') = 1700
  /\ lds.IsConnected (main.cNSClient g') = true
  /\ map lds.addr (main.goroutines g') = ["udp://0.0.0.0:1700"].
Proof. cbn. auto. Qed.

(* ----------------------------------------------------------------- *)
(** ** [sendWithPayload]: the rxpk record *)

(** The record built from metadata that carries a GPS time and LoRa
    modulation information. *)
Lemma sendWithPayload_packet_present (env : Env) (payload : list byte)
    (rxInfo : option gw.UplinkRXInfo) (txInfo : option gw.UplinkTXInfo)
    (gps : duration.Duration) (m : gw.LoRaModulationInfo) :
  gw.GetTimeSinceGpsEpoch rxInfo = Some gps ->
  gw.GetLoraModulationInfo txInfo = Some m ->
  lds.sendWithPayload_packet env payload rxInfo txInfo
  = Returned
      {| lds.Time := time_Now_RFC3339 env;
         lds.TMMS :=
           uint64 (uint64 (uint64 (duration.Seconds gps) * 1000)
                   + uint64 (duration.Nanos gps) / 1000) / 1000;
         lds.TMST :=
           uint32 (uint64 (uint64 (uint64 (duration.Seconds gps) * 1000)
                           + uint64 (duration.Nanos gps) / 1000)
                   / 1000 / 1000);
         lds.Chan := gw.GetChannel rxInfo;
         lds.RFCH := gw.GetRfChain rxInfo;
         lds.Freq := Float32_MHz (gw.GetFrequency txInfo);
         lds.Stat := 1;
         lds.Modu := "LORA";
         lds.DatR :=
           ("SF" ++ fmt.decimal (gw.SpreadingFactor m)
            ++ "BW" ++ fmt.decimal (gw.Bandwidth m))%string;
         lds.CorR := gw.CodeRate m;
         lds.RSSI := gw.GetRssi rxInfo;
         lds.LSNR := gw.GetLoraSnr rxInfo;
         lds.Size := uint32 (Z.of_nat (List.length payload));
         lds.Data := base64.EncodeToString payload |}.
Proof.
  intros G M. unfold lds.sendWithPayload_packet, lds.toMilliseconds.
  rewrite G, M. cbn [deref bind gw.GetBandwidth gw.GetCodeRate].
  rewrite Sprintf_datr. reflexivity.
Qed.

(** Metadata without a GPS time, or without LoRa modulation information,
    ends the call in a nil dereference. *)
Lemma sendWithPayload_packet_absent (env : Env) (payload : list byte)
    (rxInfo : option gw.UplinkRXInfo) (txInfo : option gw.UplinkTXInfo) :
  gw.GetTimeSinceGpsEpoch rxInfo = None
  \/ gw.GetLoraModulationInfo txInfo = None ->
  lds.sendWithPayload_packet env payload rxInfo txInfo
  = Panicked nil_pointer_dereference.
Proof.
  unfold lds.sendWithPayload_packet, lds.toMilliseconds.
  intros [G | M].
  - rewrite G. reflexivity.
  - rewrite M. destruct (gw.GetTimeSinceGpsEpoch rxInfo); reflexivity.
Qed.

(** Once the rxpk record is built, [sendWithPayload] encodes the object
    whose one member [rxpk] is the array of that one record, by its field
    tags, and what it sends is the header, the gateway bytes and that
    encoding. *)
Lemma sendWithPayload_encodes_packet (env : Env) (client : lds.NSClient)
    (payload : list byte) (gwMAC : string)
    (rxInfo : option gw.UplinkRXInfo) (txInfo : option gw.UplinkTXInfo)
    (packet : lds.pfpacket) :
  lds.sendWithPayload_packet env payload rxInfo txInfo = Returned packet ->
  lds.sendWithPayload env client payload gwMAC rxInfo txInfo
  = match encoding_json.Marshal env
            (JObject [("rxpk", JArray [lds.pfpacket_json packet])]) with
    | inr err => (Returned (Some err), [])
    | inl packetJSON =>
        match hex.DecodeString gwMAC with
        | inr err => (Returned (Some err), [])
        | inl gwbytes =>
            (Returned None,
             snd (lds.send env client
                    ([x02;
                      to_byte (Z.shiftr (Z.land (rand_Int env) 65280) 8);
                      to_byte (Z.land (rand_Int env) 255);
                      x00] ++ gwbytes ++ packetJSON)))
        end
    end.
Proof.
  intros P. unfold lds.sendWithPayload, lds.sendWithPayload_datagram.
  rewrite P. cbn [bind lds.pfproto_json lds.RXPK map].
  destruct (encoding_json.Marshal env _) as [packetJSON | err];
    [|reflexivity].
  destruct (hex.DecodeString gwMAC) as [gwbytes | err]; [|reflexivity].
  assert (R : forall r : option error * list lds.Datagram,
             (let (_, out) := r in
              (Returned None : outcome (option error), out))
             = (Returned None, snd r))
    by (intros [e out]; reflexivity).
  exact (R _).
Qed.

(** C5.  For a payload of at most 250 bytes and metadata carrying a GPS
    time and LoRa modulation information, [sendWithPayload] builds one rxpk
    record and encodes the object whose member [rxpk] is the array of that
    one record; in the record as encoded, the member [data] is a string
    whose base64 decoding is the payload, and the member [size] is the
    payload's length. *)
Theorem sendWithPayload_data_roundtrip (env : Env) (payload : list byte)
    (rxInfo : option gw.UplinkRXInfo) (txInfo : option gw.UplinkTXInfo)
    (gps : duration.Duration) (m : gw.LoRaModulationInfo) :
  (List.length payload <= 250)%nat ->
  gw.GetTimeSinceGpsEpoch rxInfo = Some gps ->
  gw.GetLoraModulationInfo txInfo = Some m ->
  exists packet data,
    lds.sendWithPayload_packet env payload rxInfo txInfo = Returned packet
    /\ (forall client gwMAC,
          lds.sendWithPayload env client payload gwMAC rxInfo txInfo
          = match encoding_json.Marshal env
                    (JObject [("rxpk", JArray [lds.pfpacket_json packet])])
            with
            | inr err => (Returned (Some err), [])
            | inl packetJSON =>
                match hex.DecodeString gwMAC with
                | inr err => (Returned (Some err), [])
                | inl gwbytes =>
                    (Returned None,
                     snd (lds.send env client
                            ([x02;
                              to_byte
                                (Z.shiftr (Z.land (rand_Int env) 65280) 8);
                              to_byte (Z.land (rand_Int env) 255);
                              x00] ++ gwbytes ++ packetJSON)))
                end
            end)
    /\ json_member "data" (lds.pfpacket_json packet) = Some (JString data)
    /\ base64.DecodeString data = Some payload
    /\ json_member "size" (lds.pfpacket_json packet)
       = Some (JInt (Z.of_nat (List.length payload)))
    /\ base64.DecodeString (lds.Data packet) = Some payload
    /\ lds.Size packet = Z.of_nat (List.length payload).
Proof.
  intros L G M.
  pose proof (sendWithPayload_packet_present env payload _ _ _ _ G M) as P.
  assert (S : uint32 (Z.of_nat (List.length payload))
              = Z.of_nat (List.length payload)).
  { unfold uint32, wrap. apply Z.mod_small.
    change (2 ^ 32) with 4294967296. lia. }
  eexists. exists (base64.EncodeToString payload).
  split; [exact P|].
  split; [intros client gwMAC;
          apply (sendWithPayload_encodes_packet _ _ _ _ _ _ _ P)|].
  cbn [json_member json_lookup lds.pfpacket_json String.eqb Ascii.eqb
       Bool.eqb lds.Data lds.Size].
  rewrite S. repeat split; try reflexivity; apply base64_roundtrip.
Qed.

Lemma sendWithPayload_data_roundtrip_witness :
  exists packet data,
    lds.sendWithPayload_packet sample_env [x01; x02; x03; x04]
      sample_rxInfo sample_txInfo = Returned packet
    /\ (forall client gwMAC,
          lds.sendWithPayload sample_env client [x01; x02; x03; x04] gwMAC
            sample_rxInfo sample_txInfo
          = match encoding_json.Marshal sample_env
                    (JObject [("rxpk", JArray [lds.pfpacket_json packet])])
            with
            | inr err => (Returned (Some err), [])
            | inl packetJSON =>
                match hex.DecodeString gwMAC with
                | inr err => (Returned (Some err), [])
                | inl gwbytes =>
                    (Returned None,
                     snd (lds.send sample_env client
                            ([x02;
                              to_byte
                                (Z.shiftr
                                   (Z.land (rand_Int sample_env) 65280) 8);
                              to_byte (Z.land (rand_Int sample_env) 255);
                              x00] ++ gwbytes ++ packetJSON)))
                end
            end)
    /\ json_member "data" (lds.pfpacket_json packet) = Some (JString data)
    /\ base64.DecodeString data = Some [x01; x02; x03; x04]
    /\ json_member "size" (lds.pfpacket_json packet) = Some (JInt 4)
    /\ base64.DecodeString (lds.Data packet) = Some [x01; x02; x03; x04]
    /\ lds.Size packet = 4.
Proof.
  apply (sendWithPayload_data_roundtrip sample_env [x01; x02; x03; x04]
           sample_rxInfo sample_txInfo
           {| duration.Seconds := 1; duration.Nanos := 500000000 |}
           {| gw.Bandwidth := 125; gw.SpreadingFactor := 7;
              gw.CodeRate := "4/5" |});
    [simpl; lia | reflexivity | reflexivity].
Defined.

(** C6.  For metadata carrying a GPS time and LoRa modulation information
    with spreading factor [sf] and bandwidth [bw], [sendWithPayload] builds
    one rxpk record and encodes the object whose member [rxpk] is the array
    of that one record; in the record as encoded, the member [datr] is the
    text "SF", [sf] in decimal, "BW", [bw] in decimal, the member [stat] is
    1 and the member [modu] is "LORA". *)
Theorem sendWithPayload_datr (env : Env) (payload : list byte)
    (rxInfo : option gw.UplinkRXInfo) (txInfo : option gw.UplinkTXInfo)
    (gps : duration.Duration) (m : gw.LoRaModulationInfo) :
  gw.GetTimeSinceGpsEpoch rxInfo = Some gps ->
  gw.GetLoraModulationInfo txInfo = Some m ->
  exists packet,
    lds.sendWithPayload_packet env payload rxInfo txInfo = Returned packet
    /\ (forall client gwMAC,
          lds.sendWithPayload env client payload gwMAC rxInfo txInfo
          = match encoding_json.Marshal env
                    (JObject [("rxpk", JArray [lds.pfpacket_json packet])])
            with
            | inr err => (Returned (Some err), [])
            | inl packetJSON =>
                match hex.DecodeString gwMAC with
                | inr err => (Returned (Some err), [])
                | inl gwbytes =>
                    (Returned None,
                     snd (lds.send env client
                            ([x02;
                              to_byte
                                (Z.shiftr (Z.land (rand_Int env) 65280) 8);
                              to_byte (Z.land (rand_Int env) 255);
                              x00] ++ gwbytes ++ packetJSON)))
                end
            end)
    /\ json_member "datr" (lds.pfpacket_json packet)
       = Some (JString
                 ("SF" ++ fmt.decimal (gw.SpreadingFactor m)
                  ++ "BW" ++ fmt.decimal (gw.Bandwidth m))%string)
    /\ json_member "stat" (lds.pfpacket_json packet) = Some (JInt 1)
    /\ json_member "modu" (lds.pfpacket_json packet) = Some (JString "LORA")
    /\ lds.DatR packet
       = ("SF" ++ fmt.decimal (gw.SpreadingFactor m)
          ++ "BW" ++ fmt.decimal (gw.Bandwidth m))%string
    /\ lds.Stat packet = 1
    /\ lds.Modu packet = "LORA".
Proof.
  intros G M.
  pose proof (sendWithPayload_packet_present env payload _ _ _ _ G M) as P.
  eexists. split; [exact P|].
  split; [intros client gwMAC;
          apply (sendWithPayload_encodes_packet _ _ _ _ _ _ _ P)|].
  cbn [json_member json_lookup lds.pfpacket_json String.eqb Ascii.eqb
       Bool.eqb lds.DatR lds.Stat lds.Modu].
  repeat split; reflexivity.
Qed.

Lemma sendWithPayload_datr_witness :
  exists packet,
    lds.sendWithPayload_packet sample_env [x01] sample_rxInfo sample_txInfo
    = Returned packet
    /\ (forall client gwMAC,
          lds.sendWithPayload sample_env client [x01] gwMAC
            sample_rxInfo sample_txInfo
          = match encoding_json.Marshal sample_env
                    (JObject [("rxpk", JArray [lds.pfpacket_json packet])])
            with
            | inr err => (Returned (Some err), [])
            | inl packetJSON =>
                match hex.DecodeString gwMAC with
                | inr err => (Returned (Some err), [])
                | inl gwbytes =>
                    (Returned None,
                     snd (lds.send sample_env client
                            ([x02;
                              to_byte
                                (Z.shiftr
                                   (Z.land (rand_Int sample_env) 65280) 8);
                              to_byte (Z.land (rand_Int sample_env) 255);
                              x00] ++ gwbytes ++ packetJSON)))
                end
            end)
    /\ json_member "datr" (lds.pfpacket_json packet)
       = Some (JString "SF7BW125")
    /\ json_member "stat" (lds.pfpacket_json packet) = Some (JInt 1)
    /\ json_member "modu" (lds.pfpacket_json packet) = Some (JString "LORA")
    /\ lds.DatR packet = "SF7BW125"
    /\ lds.Stat packet = 1
    /\ lds.Modu packet = "LORA".
Proof.
  apply (sendWithPayload_datr sample_env [x01] sample_rxInfo sample_txInfo
           {| duration.Seconds := 1; duration.Nanos := 500000000 |}
           {| gw.Bandwidth := 125; gw.SpreadingFactor := 7;
              gw.CodeRate := "4/5" |});
    reflexivity.
Defined.

(** What [tmms] holds for a GPS time of [s] seconds and [n] nanoseconds in
    the usual ranges: the seconds plus the whole milliseconds of [n]. *)
Lemma TMMS_seconds_plus_millis (s n : Z) :
  0 <= s < 9007199254740992 -> 0 <= n < 1000000000 ->
  uint64 (uint64 (uint64 s * 1000) + uint64 n / 1000) / 1000
  = s + n / 1000000.
Proof.
  intros Hs Hn. unfold uint64, wrap.
  change (2 ^ 64) with 18446744073709551616.
  rewrite (Z.mod_small s) by lia. rewrite (Z.mod_small n) by lia.
  rewrite (Z.mod_small (s * 1000)) by lia.
  assert (0 <= n / 1000 < 1000000) by (Z.div_mod_to_equations; lia).
  rewrite (Z.mod_small (s * 1000 + n / 1000)) by lia.
  Z.div_mod_to_equations. lia.
Qed.

(** C8.  A GPS time of one second and no nanoseconds is 1000 ms after the
    GPS epoch; the rxpk record carries [tmms] 1. *)
Theorem TMMS_of_one_second :
  exists packet,
    lds.sendWithPayload_packet sample_env [x01] one_second_rxInfo
      sample_txInfo = Returned packet
    /\ lds.TMMS packet = 1.
Proof. eexists. split; reflexivity. Qed.

(* ----------------------------------------------------------------- *)
(** ** [sendWithPayload]: the datagram and the send *)

(** C7.  For metadata carrying a GPS time, LoRa modulation information and
    a finite signal-to-noise ratio, and a gateway MAC of 16 hexadecimal
    characters, the datagram is built and is the 4-byte header (0x02, the
    two token bytes, 0x00), then the 8 bytes decoded from the MAC, then
    the JSON text of an object whose ["rxpk"] member is an array of exactly
    one record, the rxpk record of the call; and what the call puts on the
    network is what [send] makes of this datagram. *)
Theorem sendWithPayload_datagram_layout (env : Env) (payload : list byte)
    (gwMAC : string)
    (rxInfo : option gw.UplinkRXInfo) (txInfo : option gw.UplinkTXInfo)
    (gps : duration.Duration) (m : gw.LoRaModulationInfo) :
  gw.GetTimeSinceGpsEpoch rxInfo = Some gps ->
  gw.GetLoraModulationInfo txInfo = Some m ->
  IsInf_or_NaN (gw.GetLoraSnr rxInfo) = false ->
  valid_hex gwMAC = true ->
  String.length gwMAC = 16%nat ->
  exists packet gwbytes datagram,
    lds.sendWithPayload_packet env payload rxInfo txInfo = Returned packet
    /\ hex.DecodeString gwMAC = inl gwbytes
    /\ List.length gwbytes = 8%nat
    /\ datagram
       = [x02;
          to_byte (Z.shiftr (Z.land (rand_Int env) 65280) 8);
          to_byte (Z.land (rand_Int env) 255);
          x00]
         ++ gwbytes
         ++ list_byte_of_string
              (encoding_json.encode env
                 (JObject [("rxpk", JArray [lds.pfpacket_json packet])]))
    /\ lds.sendWithPayload_datagram env payload gwMAC rxInfo txInfo
       = Returned (inl datagram)
    /\ forall client,
         snd (lds.sendWithPayload env client payload gwMAC rxInfo txInfo)
         = snd (lds.send env client datagram).
Proof.
  intros G M F V L.
  destruct (DecodeString_valid gwMAC V) as (gwbytes & D & N).
  pose proof (sendWithPayload_packet_present env payload _ _ _ _ G M) as P.
  destruct (lds.sendWithPayload_packet env payload rxInfo txInfo)
    as [packet|] eqn:E; [|discriminate].
  assert (S : lds.LSNR packet = gw.GetLoraSnr rxInfo)
    by (inversion P; reflexivity).
  assert (B : lds.sendWithPayload_datagram env payload gwMAC rxInfo txInfo
              = Returned
                  (inl ([x02;
                         to_byte (Z.shiftr (Z.land (rand_Int env) 65280) 8);
                         to_byte (Z.land (rand_Int env) 255);
                         x00]
                        ++ gwbytes
                        ++ list_byte_of_string
                             (encoding_json.encode env
                                (lds.pfproto_json
                                   {| lds.RXPK := [packet] |}))))).
  { unfold lds.sendWithPayload_datagram. rewrite E.
    cbn [bind]. unfold encoding_json.Marshal.
    cbn [lds.pfproto_json lds.RXPK map lds.pfpacket_json
         encoding_json.supported forallb andb].
    rewrite S, F. cbn [negb andb]. rewrite D. reflexivity. }
  exists packet, gwbytes. eexists.
  split; [reflexivity|]. split; [exact D|]. split; [lia|].
  split; [reflexivity|]. split; [exact B|].
  intros client. unfold lds.sendWithPayload. rewrite B.
  destruct (lds.send env client _). reflexivity.
Qed.

Lemma sendWithPayload_datagram_layout_witness :
  exists packet gwbytes datagram,
    lds.sendWithPayload_packet sample_env [x01] sample_rxInfo sample_txInfo
    = Returned packet
    /\ hex.DecodeString "0011223344556677" = inl gwbytes
    /\ List.length gwbytes = 8%nat
    /\ datagram
       = [x02; xab; xcd; x00]
         ++ gwbytes
         ++ list_byte_of_string
              (encoding_json.encode sample_env
                 (JObject [("rxpk", JArray [lds.pfpacket_json packet])]))
    /\ lds.sendWithPayload_datagram sample_env [x01] "0011223344556677"
         sample_rxInfo sample_txInfo
       = Returned (inl datagram)
    /\ forall client,
         snd (lds.sendWithPayload sample_env client [x01] "0011223344556677"
                sample_rxInfo sample_txInfo)
         = snd (lds.send sample_env client datagram).
Proof.
  apply (sendWithPayload_datagram_layout sample_env [x01] "0011223344556677"
           sample_rxInfo sample_txInfo
           {| duration.Seconds := 1; duration.Nanos := 500000000 |}
           {| gw.Bandwidth := 125; gw.SpreadingFactor := 7;
              gw.CodeRate := "4/5" |});
    reflexivity.
Defined.

(** The JSON text of the sample uplink. *)
Example sample_body :
  encoding_json.Marshal sample_env
    (lds.pfproto_json
       {| lds.RXPK :=
            [ {| lds.Time := "t"; lds.TMMS := 501; lds.TMST := 0;
                 lds.Chan := 2; lds.RFCH := 1;
                 lds.Freq := Float32_MHz 868100000; lds.Stat := 1;
                 lds.Modu := "LORA"; lds.DatR := "SF7BW125";
                 lds.CorR := "4/5"; lds.RSSI := -57;
                 lds.LSNR := Float64frombits 4620130267728707584;
                 lds.Size := 1; lds.Data := "AQ==" |} ] |})
  = inl (list_byte_of_string
           (String.concat encoding_json.quote
              [ "{"; "rxpk"; ":[{"; "time"; ":"; "t"; ","; "tmms"; ":501,";
                "tmst"; ":0,"; "chan"; ":2,"; "rfch"; ":1,"; "freq";
                ":868.1,"; "stat"; ":1,"; "modu"; ":"; "LORA"; ",";
                "datr"; ":"; "SF7BW125"; ","; "codr"; ":"; "4/5"; ",";
                "rssi"; ":-57,"; "lsnr"; ":7.5,"; "size"; ":1,"; "data";
                ":"; "AQ=="; "}]}" ])).
Proof. reflexivity. Qed.

(** What goes out is nothing or the one datagram handed to [send]. *)
Lemma send_all_or_nothing (env : Env) (client : lds.NSClient)
    (datagram : list byte) :
  snd (lds.send env client datagram) = []
  \/ exists ip,
       lds.send env client datagram
       = (None, [ {| lds.dst := ip; lds.dport := lds.Port client;
                     lds.bytes := datagram |} ]).
Proof.
  unfold lds.send.
  destruct (lds.ParseIP env (lds.Server client)) as [ip|]; [|auto].
  destruct (DialUDP env ip (lds.Port client)); [auto|].
  destruct (Write env ip (lds.Port client) datagram); [auto|].
  right. exists ip. reflexivity.
Qed.

Lemma sendWithPayload_all_or_nothing (env : Env) (client : lds.NSClient)
    (payload : list byte) (gwMAC : string)
    (rxInfo : option gw.UplinkRXInfo) (txInfo : option gw.UplinkTXInfo) :
  snd (lds.sendWithPayload env client payload gwMAC rxInfo txInfo) = []
  \/ exists datagram ip,
       lds.sendWithPayload_datagram env payload gwMAC rxInfo txInfo
       = Returned (inl datagram)
       /\ snd (lds.sendWithPayload env client payload gwMAC rxInfo txInfo)
          = [ {| lds.dst := ip; lds.dport := lds.Port client;
                 lds.bytes := datagram |} ].
Proof.
  unfold lds.sendWithPayload.
  destruct (lds.sendWithPayload_datagram env payload gwMAC rxInfo txInfo)
    as [[datagram | err] | p]; [|auto|auto].
  destruct (send_all_or_nothing env client datagram) as [E | [ip E]].
  - left. destruct (lds.send env client datagram). exact E.
  - right. exists datagram, ip. rewrite E. auto.
Qed.

(** A gateway MAC that is not hexadecimal text keeps every uplink off the
    network, whatever the metadata. *)
Lemma sendWithPayload_bad_MAC_sends_nothing (env : Env)
    (client : lds.NSClient) (payload : list byte) (gwMAC : string)
    (rxInfo : option gw.UplinkRXInfo) (txInfo : option gw.UplinkTXInfo) :
  valid_hex gwMAC = false ->
  snd (lds.sendWithPayload env client payload gwMAC rxInfo txInfo) = [].
Proof.
  intros V. destruct (DecodeString_invalid gwMAC V) as [e D].
  unfold lds.sendWithPayload, lds.sendWithPayload_datagram.
  destruct (lds.sendWithPayload_packet env payload rxInfo txInfo)
    as [packet | p]; cbn [bind]; [|reflexivity].
  destruct (encoding_json.Marshal env _); [rewrite D|]; reflexivity.
Qed.

(** C10.  With metadata carrying a GPS time and LoRa modulation
    information, a gateway MAC that is not hexadecimal text makes
    [sendWithPayload] return an error, the one of [hex.DecodeString] unless
    the JSON encoding has failed first, and nothing goes out on the
    network. *)
Theorem sendWithPayload_bad_MAC (env : Env) (client : lds.NSClient)
    (payload : list byte) (gwMAC : string)
    (rxInfo : option gw.UplinkRXInfo) (txInfo : option gw.UplinkTXInfo)
    (gps : duration.Duration) (m : gw.LoRaModulationInfo) :
  gw.GetTimeSinceGpsEpoch rxInfo = Some gps ->
  gw.GetLoraModulationInfo txInfo = Some m ->
  valid_hex gwMAC = false ->
  exists err,
    lds.sendWithPayload env client payload gwMAC rxInfo txInfo
    = (Returned (Some err), [])
    /\ (IsInf_or_NaN (gw.GetLoraSnr rxInfo) = false ->
        hex.DecodeString gwMAC = inr err).
Proof.
  intros G M V. destruct (DecodeString_invalid gwMAC V) as [e D].
  unfold lds.sendWithPayload, lds.sendWithPayload_datagram.
  rewrite (sendWithPayload_packet_present _ _ _ _ _ _ G M).
  cbn [bind]. unfold encoding_json.Marshal.
  cbn [lds.pfproto_json lds.RXPK map lds.pfpacket_json encoding_json.supported
       forallb lds.LSNR andb].
  destruct (IsInf_or_NaN (gw.GetLoraSnr rxInfo)); cbn [negb andb].
  - eexists. split; [reflexivity | discriminate].
  - rewrite D. eexists. split; [reflexivity | auto].
Qed.

Lemma sendWithPayload_bad_MAC_witness :
  exists err,
    lds.sendWithPayload sample_env sample_client [x01] "00112233445566zz"
      sample_rxInfo sample_txInfo
    = (Returned (Some err), [])
    /\ (IsInf_or_NaN (gw.GetLoraSnr sample_rxInfo) = false ->
        hex.DecodeString "00112233445566zz" = inr err).
Proof.
  apply (sendWithPayload_bad_MAC sample_env sample_client [x01]
           "00112233445566zz" sample_rxInfo sample_txInfo
           {| duration.Seconds := 1; duration.Nanos := 500000000 |}
           {| gw.Bandwidth := 125; gw.SpreadingFactor := 7;
              gw.CodeRate := "4/5" |});
    reflexivity.
Defined.

(** Once the datagram is built the call returns [nil], whatever [send]
    answers. *)
Lemma sendWithPayload_returns_nil_after_send (env : Env)
    (client : lds.NSClient) (payload : list byte) (gwMAC : string)
    (rxInfo : option gw.UplinkRXInfo) (txInfo : option gw.UplinkTXInfo)
    (datagram : list byte) :
  lds.sendWithPayload_datagram env payload gwMAC rxInfo txInfo
  = Returned (inl datagram) ->
  fst (lds.sendWithPayload env client payload gwMAC rxInfo txInfo)
  = Returned None.
Proof.
  intros D. unfold lds.sendWithPayload. rewrite D.
  destruct (lds.send env client datagram). reflexivity.
Qed.

(** A server name with neither dot nor colon is no IP address, in any
    environment. *)
Example send_not_an_ip (env : Env) (datagram : list byte) :
  lds.send env unroutable_client datagram
  = (Some (errors_New "bad network server IP"), []).
Proof. reflexivity. Qed.

(** C3.  The sample uplink through a client whose server is
    ["not-an-ip"]: the datagram is built, [send] answers with the error
    "bad network server IP", and [sendWithPayload] returns [nil]. *)
Theorem sendWithPayload_drops_send_error :
  exists datagram,
    lds.sendWithPayload_datagram sample_env [x01] "0011223344556677"
      sample_rxInfo sample_txInfo = Returned (inl datagram)
    /\ lds.send sample_env unroutable_client datagram
       = (Some (errors_New "bad network server IP"), [])
    /\ lds.sendWithPayload sample_env unroutable_client [x01]
         "0011223344556677" sample_rxInfo sample_txInfo
       = (Returned None, []).
Proof. eexists. repeat split; reflexivity. Qed.

(* ----------------------------------------------------------------- *)
(** ** [UDPParsePacket]: which packets come back *)

(** X1.  A packet shorter than the four header bytes comes back with
    [false] and the reader's error, [io.EOF] when the packet is empty and
    [io.ErrUnexpectedEOF] otherwise, and the map is left as it was. *)
Theorem UDPParsePacket_truncated (packet : list byte) (result : jsonMap) :
  (List.length packet < 4)%nat ->
  UDPParsePacket packet result
  = Returned
      (false,
       Some (match packet with [] => io_EOF | _ => io_ErrUnexpectedEOF end),
       result).
Proof.
  intros H. destruct packet as [|b0 [|b1 [|b2 [|b3 rest]]]];
    cbn in H; try lia; reflexivity.
Qed.

Lemma UDPParsePacket_truncated_witness :
  UDPParsePacket [x02; x12; x34] [("k", JInt 1)]
  = Returned (false, Some io_ErrUnexpectedEOF, [("k", JInt 1)]).
Proof.
  apply (UDPParsePacket_truncated [x02; x12; x34] [("k", JInt 1)]).
  simpl. lia.
Defined.

(** X2.  The call returns exactly for the packets shorter than four
    bytes: every longer one ends in the panic of the reflective store. *)
Theorem UDPParsePacket_returns_iff_truncated (packet : list byte)
    (result : jsonMap) :
  (exists r, UDPParsePacket packet result = Returned r)
  <-> (List.length packet < 4)%nat.
Proof.
  split.
  - intros [r H].
    destruct (Nat.lt_ge_cases (List.length packet) 4) as [L | G]; [exact L|].
    rewrite (UDPParsePacket_full_header packet result G) in H. discriminate.
  - intros L. destruct (UDPParsePacket_short packet result L) as [e E].
    rewrite E. eauto.
Qed.

(* ----------------------------------------------------------------- *)
(** ** [toMilliseconds] and the time fields *)

(** X3.  For a GPS time of [s] seconds and [n] nanoseconds in the usual
    ranges, [toMilliseconds] gives [s * 1000 + n / 1000], so that [tmms]
    is [s + n / 1000000] and [tmst] is [(s * 1000 + n / 1000) / 1000000]. *)
Theorem sendWithPayload_time_fields (env : Env) (payload : list byte)
    (rxInfo : option gw.UplinkRXInfo) (txInfo : option gw.UplinkTXInfo)
    (s n : Z) (m : gw.LoRaModulationInfo) :
  gw.GetTimeSinceGpsEpoch rxInfo
  = Some {| duration.Seconds := s; duration.Nanos := n |} ->
  gw.GetLoraModulationInfo txInfo = Some m ->
  0 <= s < 2 ^ 32 -> 0 <= n < 1000000000 ->
  exists packet,
    lds.sendWithPayload_packet env payload rxInfo txInfo = Returned packet
    /\ lds.toMilliseconds (gw.GetTimeSinceGpsEpoch rxInfo)
       = Returned (s * 1000 + n / 1000)
    /\ lds.TMMS packet = s + n / 1000000
    /\ lds.TMST packet = (s * 1000 + n / 1000) / 1000000.
Proof.
  intros G M Hs Hn. change (2 ^ 32) with 4294967296 in Hs.
  assert (K : 0 <= n / 1000 < 1000000) by (Z.div_mod_to_equations; lia).
  assert (T : uint64 (uint64 (uint64 s * 1000) + uint64 n / 1000)
              = s * 1000 + n / 1000).
  { unfold uint64, wrap. change (2 ^ 64) with 18446744073709551616.
    rewrite (Z.mod_small s) by lia. rewrite (Z.mod_small n) by lia.
    rewrite (Z.mod_small (s * 1000)) by lia.
    apply Z.mod_small. lia. }
  eexists. split; [apply (sendWithPayload_packet_present _ _ _ _ _ _ G M)|].
  cbn [lds.TMMS lds.TMST duration.Seconds duration.Nanos].
  rewrite G. unfold lds.toMilliseconds.
  cbn [deref bind duration.Seconds duration.Nanos]. rewrite T.
  split; [reflexivity|]. split.
  - Z.div_mod_to_equations. lia.
  - rewrite Z.div_div by lia. change (1000 * 1000) with 1000000.
    unfold uint32, wrap. change (2 ^ 32) with 4294967296.
    apply Z.mod_small. Z.div_mod_to_equations. lia.
Qed.

Lemma sendWithPayload_time_fields_witness :
  exists packet,
    lds.sendWithPayload_packet sample_env [x01] sample_rxInfo sample_txInfo
    = Returned packet
    /\ lds.toMilliseconds (gw.GetTimeSinceGpsEpoch sample_rxInfo)
       = Returned (1 * 1000 + 500000000 / 1000)
    /\ lds.TMMS packet = 1 + 500000000 / 1000000
    /\ lds.TMST packet = (1 * 1000 + 500000000 / 1000) / 1000000.
Proof.
  apply (sendWithPayload_time_fields sample_env [x01] sample_rxInfo
           sample_txInfo 1 500000000
           {| gw.Bandwidth := 125; gw.SpreadingFactor := 7;
              gw.CodeRate := "4/5" |});
    [reflexivity | reflexivity | split; [lia | reflexivity] | lia].
Defined.

(** X4.  Whatever the metadata, also with negative or oversized times, the
    numbers of a record that is produced are in the ranges of their
    unsigned types: [tmms] below 2^64 / 1000 + 1, [tmst] and [size] below
    2^32, none negative. *)
Theorem sendWithPayload_packet_ranges (env : Env) (payload : list byte)
    (rxInfo : option gw.UplinkRXInfo) (txInfo : option gw.UplinkTXInfo)
    (packet : lds.pfpacket) :
  lds.sendWithPayload_packet env payload rxInfo txInfo = Returned packet ->
  0 <= lds.TMMS packet <= 18446744073709551
  /\ 0 <= lds.TMST packet < 2 ^ 32
  /\ 0 <= lds.Size packet < 2 ^ 32.
Proof.
  intros H.
  destruct (gw.GetTimeSinceGpsEpoch rxInfo) as [gps|] eqn:G.
  2:{ rewrite sendWithPayload_packet_absent in H by auto. discriminate. }
  destruct (gw.GetLoraModulationInfo txInfo) as [m|] eqn:M.
  2:{ rewrite sendWithPayload_packet_absent in H by auto. discriminate. }
  rewrite (sendWithPayload_packet_present _ _ _ _ _ _ G M) in H.
  inversion H; subst packet; clear H.
  cbn [lds.TMMS lds.TMST lds.Size].
  set (t := uint64 (uint64 (uint64 (duration.Seconds gps) * 1000)
                    + uint64 (duration.Nanos gps) / 1000)).
  assert (R : 0 <= t < 18446744073709551616)
    by (apply Z.mod_pos_bound; reflexivity).
  split; [Z.div_mod_to_equations; lia|].
  split; apply Z.mod_pos_bound; reflexivity.
Qed.

Lemma sendWithPayload_packet_ranges_witness :
  0 <= 501 <= 18446744073709551 /\ 0 <= 0 < 2 ^ 32 /\ 0 <= 1 < 2 ^ 32.
Proof.
  apply (sendWithPayload_packet_ranges sample_env [x01] sample_rxInfo
           sample_txInfo
           {| lds.Time := "2020-03-01T12:00:00Z"; lds.TMMS := 501;
              lds.TMST := 0; lds.Chan := 2; lds.RFCH := 1;
              lds.Freq := Float32_MHz 868100000; lds.Stat := 1;
              lds.Modu := "LORA"; lds.DatR := "SF7BW125";
              lds.CorR := "4/5"; lds.RSSI := -57;
              lds.LSNR := Float64frombits 4620130267728707584;
              lds.Size := 1; lds.Data := "AQ==" |}).
  reflexivity.
Defined.

(* ----------------------------------------------------------------- *)
(** ** [sendWithPayload]: the payload text *)

Lemma EncodeToString_length (src : list byte) :
  String.length (base64.EncodeToString src)
  = (4 * ((List.length src + 2) / 3))%nat.
Proof.
  induction src as [|a|a b|a b c l IH] using list_ind3;
    cbn [base64.EncodeToString String.length List.length];
    try reflexivity.
  rewrite IH.
  replace (S (S (S (List.length l))) + 2)%nat
    with (1 * 3 + (List.length l + 2))%nat by lia.
  rewrite Nat.div_add_l by lia. lia.
Qed.

(** X5.  The [data] field is padded base64: for a payload of [n] bytes it
    has [4 * ceil(n / 3)] characters, a multiple of four. *)
Theorem sendWithPayload_data_length (env : Env) (payload : list byte)
    (rxInfo : option gw.UplinkRXInfo) (txInfo : option gw.UplinkTXInfo)
    (packet : lds.pfpacket) :
  lds.sendWithPayload_packet env payload rxInfo txInfo = Returned packet ->
  String.length (lds.Data packet)
  = (4 * ((List.length payload + 2) / 3))%nat.
Proof.
  intros H.
  destruct (gw.GetTimeSinceGpsEpoch rxInfo) as [gps|] eqn:G.
  2:{ rewrite sendWithPayload_packet_absent in H by auto. discriminate. }
  destruct (gw.GetLoraModulationInfo txInfo) as [m|] eqn:M.
  2:{ rewrite sendWithPayload_packet_absent in H by auto. discriminate. }
  rewrite (sendWithPayload_packet_present _ _ _ _ _ _ G M) in H.
  inversion H; subst packet; clear H.
  cbn [lds.Data]. apply EncodeToString_length.
Qed.

Lemma sendWithPayload_data_length_witness :
  String.length "AQIDBA==" = (4 * ((4 + 2) / 3))%nat.
Proof.
  apply (sendWithPayload_data_length sample_env [x01; x02; x03; x04]
           sample_rxInfo sample_txInfo
           {| lds.Time := "2020-03-01T12:00:00Z"; lds.TMMS := 501;
              lds.TMST := 0; lds.Chan := 2; lds.RFCH := 1;
              lds.Freq := Float32_MHz 868100000; lds.Stat := 1;
              lds.Modu := "LORA"; lds.DatR := "SF7BW125";
              lds.CorR := "4/5"; lds.RSSI := -57;
              lds.LSNR := Float64frombits 4620130267728707584;
              lds.Size := 4; lds.Data := "AQIDBA==" |}).
  reflexivity.
Defined.

(* ----------------------------------------------------------------- *)
(** ** [sendWithPayload]: how a call ends *)

(** X6.  The call panics exactly when the reception carries no GPS time
    or the transmission no LoRa modulation information; the panic is a nil
    dereference and nothing goes out. *)
Theorem sendWithPayload_panics_iff (env : Env) (client : lds.NSClient)
    (payload : list byte) (gwMAC : string)
    (rxInfo : option gw.UplinkRXInfo) (txInfo : option gw.UplinkTXInfo) :
  ((exists p,
      fst (lds.sendWithPayload env client payload gwMAC rxInfo txInfo)
      = Panicked p)
   <-> gw.GetTimeSinceGpsEpoch rxInfo = None
       \/ gw.GetLoraModulationInfo txInfo = None)
  /\ (gw.GetTimeSinceGpsEpoch rxInfo = None
      \/ gw.GetLoraModulationInfo txInfo = None ->
      lds.sendWithPayload env client payload gwMAC rxInfo txInfo
      = (Panicked nil_pointer_dereference, [])).
Proof.
  assert (A : gw.GetTimeSinceGpsEpoch rxInfo = None
              \/ gw.GetLoraModulationInfo txInfo = None ->
              lds.sendWithPayload env client payload gwMAC rxInfo txInfo
              = (Panicked nil_pointer_dereference, [])).
  { intros H. unfold lds.sendWithPayload, lds.sendWithPayload_datagram.
    rewrite (sendWithPayload_packet_absent _ _ _ _ H). reflexivity. }
  split; [|exact A]. split.
  - intros [p H].
    destruct (gw.GetTimeSinceGpsEpoch rxInfo) as [gps|] eqn:G; [|auto].
    destruct (gw.GetLoraModulationInfo txInfo) as [m|] eqn:M; [|auto].
    exfalso. revert H.
    unfold lds.sendWithPayload, lds.sendWithPayload_datagram.
    rewrite (sendWithPayload_packet_present _ _ _ _ _ _ G M). cbn [bind].
    destruct (encoding_json.Marshal env _);
      [|cbn [fst]; intros H; discriminate H].
    destruct (hex.DecodeString gwMAC);
      [|cbn [fst]; intros H; discriminate H].
    destruct (lds.send env client _). cbn [fst]. intros H. discriminate H.
  - intros H. rewrite (A H). eexists. reflexivity.
Qed.

(** X7.  A signal-to-noise ratio that is infinite or not a number stops
    the call at [json.Marshal]: it returns the unsupported-value error and
    nothing goes out, whatever the gateway MAC. *)
Theorem sendWithPayload_unsupported_snr (env : Env) (client : lds.NSClient)
    (payload : list byte) (gwMAC : string)
    (rxInfo : option gw.UplinkRXInfo) (txInfo : option gw.UplinkTXInfo)
    (gps : duration.Duration) (m : gw.LoRaModulationInfo) :
  gw.GetTimeSinceGpsEpoch rxInfo = Some gps ->
  gw.GetLoraModulationInfo txInfo = Some m ->
  IsInf_or_NaN (gw.GetLoraSnr rxInfo) = true ->
  lds.sendWithPayload env client payload gwMAC rxInfo txInfo
  = (Returned (Some json_UnsupportedValueError), []).
Proof.
  intros G M F.
  unfold lds.sendWithPayload, lds.sendWithPayload_datagram.
  rewrite (sendWithPayload_packet_present _ _ _ _ _ _ G M).
  cbn [bind]. unfold encoding_json.Marshal.
  cbn [lds.pfproto_json lds.RXPK map lds.pfpacket_json encoding_json.supported
       forallb lds.LSNR andb].
  rewrite F. reflexivity.
Qed.

Lemma sendWithPayload_unsupported_snr_witness :
  lds.sendWithPayload sample_env sample_client [x01] "0011223344556677"
    (Some {| gw.TimeSinceGpsEpoch :=
               Some {| duration.Seconds := 1; duration.Nanos := 0 |};
             gw.Rssi := -57;
             gw.LoraSnr := Float64frombits 9221120237041090560;
             gw.Channel := 2;
             gw.RfChain := 1 |})
    sample_txInfo
  = (Returned (Some json_UnsupportedValueError), []).
Proof.
  apply (sendWithPayload_unsupported_snr sample_env sample_client [x01]
           "0011223344556677" _ sample_txInfo
           {| duration.Seconds := 1; duration.Nanos := 0 |}
           {| gw.Bandwidth := 125; gw.SpreadingFactor := 7;
              gw.CodeRate := "4/5" |});
    reflexivity.
Defined.

(** X8.  An error returned by the call is the unsupported-value error of
    [json.Marshal] or the error of [hex.DecodeString] on the gateway MAC,
    never one of the network; and with it nothing has gone out. *)
Theorem sendWithPayload_errors (env : Env) (client : lds.NSClient)
    (payload : list byte) (gwMAC : string)
    (rxInfo : option gw.UplinkRXInfo) (txInfo : option gw.UplinkTXInfo)
    (err : error) :
  fst (lds.sendWithPayload env client payload gwMAC rxInfo txInfo)
  = Returned (Some err) ->
  (err = json_UnsupportedValueError \/ hex.DecodeString gwMAC = inr err)
  /\ snd (lds.sendWithPayload env client payload gwMAC rxInfo txInfo) = [].
Proof.
  unfold lds.sendWithPayload, lds.sendWithPayload_datagram.
  destruct (lds.sendWithPayload_packet env payload rxInfo txInfo)
    as [packet | p]; cbn [bind]; [|discriminate].
  unfold encoding_json.Marshal.
  destruct (encoding_json.supported _).
  - destruct (hex.DecodeString gwMAC) as [gwbytes | e].
    + destruct (lds.send env client _). discriminate.
    + cbn [fst snd]. intros [= <-]. auto.
  - cbn [fst snd]. intros [= <-]. auto.
Qed.

Lemma sendWithPayload_errors_witness :
  (hex_ErrLength = json_UnsupportedValueError
   \/ hex.DecodeString "001" = inr hex_ErrLength)
  /\ snd (lds.sendWithPayload sample_env sample_client [x01] "001"
            sample_rxInfo sample_txInfo) = [].
Proof.
  apply (sendWithPayload_errors sample_env sample_client [x01] "001"
           sample_rxInfo sample_txInfo hex_ErrLength).
  reflexivity.
Defined.

(** X9.  One call puts at most one datagram on the network: nothing, or
    the datagram it built, sent to the client's port. *)
Theorem sendWithPayload_at_most_one (env : Env) (client : lds.NSClient)
    (payload : list byte) (gwMAC : string)
    (rxInfo : option gw.UplinkRXInfo) (txInfo : option gw.UplinkTXInfo) :
  snd (lds.sendWithPayload env client payload gwMAC rxInfo txInfo) = []
  \/ exists datagram ip,
       lds.sendWithPayload_datagram env payload gwMAC rxInfo txInfo
       = Returned (inl datagram)
       /\ lds.ParseIP env (lds.Server client) = Some ip
       /\ lds.sendWithPayload env client payload gwMAC rxInfo txInfo
          = (Returned None,
             [ {| lds.dst := ip; lds.dport := lds.Port client;
                  lds.bytes := datagram |} ]).
Proof.
  unfold lds.sendWithPayload.
  destruct (lds.sendWithPayload_datagram env payload gwMAC rxInfo txInfo)
    as [[datagram | err] | p]; [|auto|auto].
  unfold lds.send.
  destruct (lds.ParseIP env (lds.Server client)) as [ip|]; [|auto].
  destruct (DialUDP env ip (lds.Port client)); [auto|].
  destruct (Write env ip (lds.Port client) datagram); [auto|].
  right. exists datagram, ip. auto.
Qed.

(* ----------------------------------------------------------------- *)
(** ** [sendWithPayload]: the header and the gateway MAC *)

Lemma sendWithPayload_datagram_built (env : Env) (payload : list byte)
    (gwMAC : string)
    (rxInfo : option gw.UplinkRXInfo) (txInfo : option gw.UplinkTXInfo)
    (gps : duration.Duration) (m : gw.LoRaModulationInfo)
    (gwbytes : list byte) :
  gw.GetTimeSinceGpsEpoch rxInfo = Some gps ->
  gw.GetLoraModulationInfo txInfo = Some m ->
  IsInf_or_NaN (gw.GetLoraSnr rxInfo) = false ->
  hex.DecodeString gwMAC = inl gwbytes ->
  exists packet,
    lds.sendWithPayload_packet env payload rxInfo txInfo = Returned packet
    /\ lds.sendWithPayload_datagram env payload gwMAC rxInfo txInfo
       = Returned
           (inl ([x02;
                  to_byte (Z.shiftr (Z.land (rand_Int env) 65280) 8);
                  to_byte (Z.land (rand_Int env) 255);
                  x00]
                 ++ gwbytes
                 ++ list_byte_of_string
                      (encoding_json.encode env
                         (lds.pfproto_json {| lds.RXPK := [packet] |})))).
Proof.
  intros G M F D.
  pose proof (sendWithPayload_packet_present env payload _ _ _ _ G M) as P.
  destruct (lds.sendWithPayload_packet env payload rxInfo txInfo)
    as [packet|] eqn:E; [|discriminate].
  assert (S : lds.LSNR packet = gw.GetLoraSnr rxInfo)
    by (inversion P; reflexivity).
  exists packet. split; [reflexivity|].
  unfold lds.sendWithPayload_datagram. rewrite E.
  cbn [bind]. unfold encoding_json.Marshal.
  cbn [lds.pfproto_json lds.RXPK map lds.pfpacket_json
       encoding_json.supported forallb andb].
  rewrite S, F. cbn [negb andb]. rewrite D. reflexivity.
Qed.

(** X10.  The gateway MAC is not held to sixteen characters: any
    hexadecimal text of [2 * k] characters, the empty one too, is accepted
    and puts its [k] bytes between the four header bytes and the JSON
    text. *)
Theorem sendWithPayload_any_MAC_length (env : Env) (payload : list byte)
    (gwMAC : string)
    (rxInfo : option gw.UplinkRXInfo) (txInfo : option gw.UplinkTXInfo)
    (gps : duration.Duration) (m : gw.LoRaModulationInfo) :
  gw.GetTimeSinceGpsEpoch rxInfo = Some gps ->
  gw.GetLoraModulationInfo txInfo = Some m ->
  IsInf_or_NaN (gw.GetLoraSnr rxInfo) = false ->
  valid_hex gwMAC = true ->
  exists packet gwbytes,
    lds.sendWithPayload_packet env payload rxInfo txInfo = Returned packet
    /\ hex.DecodeString gwMAC = inl gwbytes
    /\ (2 * List.length gwbytes = String.length gwMAC)%nat
    /\ lds.sendWithPayload_datagram env payload gwMAC rxInfo txInfo
       = Returned
           (inl ([x02;
                  to_byte (Z.shiftr (Z.land (rand_Int env) 65280) 8);
                  to_byte (Z.land (rand_Int env) 255);
                  x00]
                 ++ gwbytes
                 ++ list_byte_of_string
                      (encoding_json.encode env
                         (lds.pfproto_json {| lds.RXPK := [packet] |})))).
Proof.
  intros G M F V.
  destruct (DecodeString_valid gwMAC V) as (gwbytes & D & N).
  destruct (sendWithPayload_datagram_built env payload gwMAC _ _ _ _ _
              G M F D) as (packet & P & B).
  exists packet, gwbytes. auto.
Qed.

Lemma sendWithPayload_any_MAC_length_witness :
  exists packet gwbytes,
    lds.sendWithPayload_packet sample_env [x01] sample_rxInfo sample_txInfo
    = Returned packet
    /\ hex.DecodeString "" = inl gwbytes
    /\ (2 * List.length gwbytes = String.length "")%nat
    /\ lds.sendWithPayload_datagram sample_env [x01] "" sample_rxInfo
         sample_txInfo
       = Returned
           (inl ([x02; xab; xcd; x00]
                 ++ gwbytes
                 ++ list_byte_of_string
                      (encoding_json.encode sample_env
                         (lds.pfproto_json {| lds.RXPK := [packet] |})))).
Proof.
  apply (sendWithPayload_any_MAC_length sample_env [x01] ""
           sample_rxInfo sample_txInfo
           {| duration.Seconds := 1; duration.Nanos := 500000000 |}
           {| gw.Bandwidth := 125; gw.SpreadingFactor := 7;
              gw.CodeRate := "4/5" |});
    reflexivity.
Defined.

Lemma token_bytes (token : Z) :
  u8 (to_byte (Z.shiftr (Z.land token 65280) 8)) * 256
  + u8 (to_byte (Z.land token 255))
  = token mod 65536.
Proof.
  rewrite !u8_to_byte.
  rewrite Z.shiftr_land.
  change (Z.shiftr 65280 8) with (Z.ones 8). change 255 with (Z.ones 8).
  rewrite !Z.land_ones by lia. rewrite Z.shiftr_div_pow2 by lia.
  change (2 ^ 8) with 256.
  rewrite !Z.mod_mod by lia.
  Z.div_mod_to_equations. lia.
Qed.

(** X11.  The second and third byte of a datagram are the low sixteen
    bits of the random token, the high byte first; the first byte is 0x02
    and the fourth 0x00. *)
Theorem sendWithPayload_header_token (env : Env) (payload : list byte)
    (gwMAC : string)
    (rxInfo : option gw.UplinkRXInfo) (txInfo : option gw.UplinkTXInfo)
    (datagram : list byte) :
  lds.sendWithPayload_datagram env payload gwMAC rxInfo txInfo
  = Returned (inl datagram) ->
  exists msb lsb rest,
    datagram = x02 :: msb :: lsb :: x00 :: rest
    /\ u8 msb * 256 + u8 lsb = rand_Int env mod 65536.
Proof.
  unfold lds.sendWithPayload_datagram.
  destruct (lds.sendWithPayload_packet env payload rxInfo txInfo)
    as [packet | p]; cbn [bind]; [|discriminate].
  destruct (encoding_json.Marshal env _) as [packetJSON | e]; [|discriminate].
  destruct (hex.DecodeString gwMAC) as [gwbytes | e]; [|discriminate].
  intros [= <-].
  do 3 eexists. split; [reflexivity|]. apply token_bytes.
Qed.

Lemma sendWithPayload_header_token_witness :
  exists msb lsb rest,
    match lds.sendWithPayload_datagram sample_env [x01] "0011223344556677"
            sample_rxInfo sample_txInfo with
    | Returned (inl datagram) => datagram
    | _ => []
    end = x02 :: msb :: lsb :: x00 :: rest
    /\ u8 msb * 256 + u8 lsb = rand_Int sample_env mod 65536.
Proof.
  apply (sendWithPayload_header_token sample_env [x01] "0011223344556677"
           sample_rxInfo sample_txInfo).
  reflexivity.
Defined.

(* ----------------------------------------------------------------- *)
(** ** [send], [Connect] and [sendWithPayload] together *)

(** X12.  Sending does not look at the listener: a call of
    [sendWithPayload] depends on the client through [Server] and [Port]
    alone, so it ends the same and sends the same whether or not the
    client is connected and whatever handler it holds. *)
Theorem sendWithPayload_ignores_listener (env : Env)
    (c1 c2 : lds.NSClient) (payload : list byte) (gwMAC : string)
    (rxInfo : option gw.UplinkRXInfo) (txInfo : option gw.UplinkTXInfo) :
  lds.Server c1 = lds.Server c2 ->
  lds.Port c1 = lds.Port c2 ->
  lds.sendWithPayload env c1 payload gwMAC rxInfo txInfo
  = lds.sendWithPayload env c2 payload gwMAC rxInfo txInfo.
Proof.
  intros S P. unfold lds.sendWithPayload, lds.send. rewrite S, P.
  reflexivity.
Qed.

Lemma sendWithPayload_ignores_listener_witness :
  lds.sendWithPayload sample_env sample_client [x01] "0011223344556677"
    sample_rxInfo sample_txInfo
  = lds.sendWithPayload sample_env
      (snd (fst (lds.Connect sample_client (fun _ => None))))
      [x01] "0011223344556677" sample_rxInfo sample_txInfo.
Proof.
  apply (sendWithPayload_ignores_listener sample_env sample_client
           (snd (fst (lds.Connect sample_client (fun _ => None)))));
    reflexivity.
Defined.

(** X13.  [Connect] does not look at the connection flag: on a client
    that is already connected it starts one more listener on the same
    address, with the new handler, and the client keeps its server and
    port and stays connected. *)
Theorem Connect_again (client : lds.NSClient)
    (h1 h2 : udpPacketCallback) :
  let '(_, client1, started1) := lds.Connect client h1 in
  let '(err2, client2, started2) := lds.Connect client1 h2 in
  err2 = None
  /\ map lds.addr started2 = map lds.addr started1
  /\ map lds.addr started2
     = [("udp://0.0.0.0:" ++ fmt.decimal (lds.Port client))%string]
  /\ map (fun g => evio.Data (lds.events g)) started2 = [Some h2]
  /\ evio.Data (lds.udpEvents client2) = Some h2
  /\ lds.Server client2 = lds.Server client
  /\ lds.Port client2 = lds.Port client
  /\ lds.IsConnected client1 = true
  /\ lds.IsConnected client2 = true.
Proof.
  cbn [lds.Connect]. unfold lds.Connect.
  cbn [lds.Port lds.Server lds.udpEvents lds.IsConnected lds.connected map
       lds.addr lds.events evio.Data].
  assert (B : fmt.Sprintf "udp://0.0.0.0:%d" [fmt.Int (lds.Port client)]
              = ("udp://0.0.0.0:" ++ fmt.decimal (lds.Port client))%string).
  { change (fmt.Sprintf "udp://0.0.0.0:%d" [fmt.Int (lds.Port client)])
      with ("udp://0.0.0.0:" ++ fmt.decimal (lds.Port client) ++ "")%string.
    rewrite append_empty_r. reflexivity. }
  rewrite B. repeat split; reflexivity.
Qed.

(* ----------------------------------------------------------------- *)
(** ** [strconv.Atoi] reads back what [%d] prints *)

Ltac eval_digit :=
  match goal with
  | |- context [strconv.digit ?c] =>
      let v := eval vm_compute in (strconv.digit c) in
      change (strconv.digit c) with v; cbv iota
  end.

Lemma of_uint_acc_ge (d : Decimal.uint) :
  forall acc, (acc <= Pos.of_uint_acc d acc)%positive.
Proof.
  induction d as [|d IH|d IH|d IH|d IH|d IH|d IH|d IH|d IH|d IH|d IH];
    intros acc; cbn [Pos.of_uint_acc]; [lia | | | | | | | | | |];
    match goal with
    | |- (_ <= Pos.of_uint_acc _ ?a)%positive => specialize (IH a); lia
    end.
Qed.

Lemma Atoi_loop_of_uint_acc (d : Decimal.uint) :
  forall acc,
    strconv.Atoi_loop (Z.pos acc) (NilEmpty.string_of_uint d)
    = Some (Z.pos (Pos.of_uint_acc d acc)).
Proof.
  induction d as [|d IH|d IH|d IH|d IH|d IH|d IH|d IH|d IH|d IH|d IH];
    intros acc;
    cbn [NilEmpty.string_of_uint strconv.Atoi_loop Pos.of_uint_acc];
    [reflexivity | | | | | | | | | |];
    eval_digit;
    match goal with
    | |- strconv.Atoi_loop ?n _ = Some (Z.pos (Pos.of_uint_acc _ ?a)) =>
        replace n with (Z.pos a) by lia; apply IH
    end.
Qed.

Lemma Atoi_loop_of_uint (d : Decimal.uint) :
  strconv.Atoi_loop 0 (NilEmpty.string_of_uint d)
  = Some (Z.of_N (Pos.of_uint d)).
Proof.
  induction d as [|d IH|d IH|d IH|d IH|d IH|d IH|d IH|d IH|d IH|d IH];
    cbn [NilEmpty.string_of_uint strconv.Atoi_loop Pos.of_uint];
    [reflexivity | exact IH | | | | | | | | |];
    eval_digit; cbn [Z.mul Z.add];
    apply Atoi_loop_of_uint_acc.
Qed.

Lemma ParseUint_loop_of_uint_acc (d : Decimal.uint) :
  forall acc,
    Z.pos (Pos.of_uint_acc d acc) <= strconv.maxUint64 ->
    strconv.ParseUint_loop (Z.pos acc) (NilEmpty.string_of_uint d)
    = (Z.pos (Pos.of_uint_acc d acc), None).
Proof.
  change strconv.maxUint64 with 18446744073709551615.
  induction d as [|d IH|d IH|d IH|d IH|d IH|d IH|d IH|d IH|d IH|d IH];
    intros acc B;
    cbn [NilEmpty.string_of_uint strconv.ParseUint_loop Pos.of_uint_acc]
      in B |- *;
    [reflexivity | | | | | | | | | |];
    eval_digit;
    change strconv.maxUint64 with 18446744073709551615;
    change (18446744073709551615 / 10 + 1) with 1844674407370955162;
    match type of B with
    | Z.pos (Pos.of_uint_acc _ ?a) <= _ =>
        pose proof (of_uint_acc_ge d a) as G;
        destruct (1844674407370955162 <=? Z.pos acc) eqn:C;
          [apply Z.leb_le in C; lia|];
        cbv zeta;
        match goal with
        | |- context [18446744073709551615 <? ?n1] =>
            destruct (18446744073709551615 <? n1) eqn:O;
              [apply Z.ltb_lt in O; lia|];
            replace n1 with (Z.pos a) by lia; apply IH; exact B
        end
    end.
Qed.

Lemma ParseUint_loop_of_uint (d : Decimal.uint) :
  Z.of_N (Pos.of_uint d) <= strconv.maxUint64 ->
  strconv.ParseUint_loop 0 (NilEmpty.string_of_uint d)
  = (Z.of_N (Pos.of_uint d), None).
Proof.
  induction d as [|d IH|d IH|d IH|d IH|d IH|d IH|d IH|d IH|d IH|d IH];
    intros B;
    cbn [NilEmpty.string_of_uint strconv.ParseUint_loop Pos.of_uint]
      in B |- *;
    [reflexivity | | | | | | | | | |];
    eval_digit;
    change (strconv.maxUint64 / 10 + 1 <=? 0) with false; cbv iota zeta;
    cbn [Z.mul Z.add];
    match goal with
    | |- context [strconv.maxUint64 <? ?n1] =>
        change (strconv.maxUint64 <? n1) with false; cbv iota
    end;
    [apply IH; exact B | apply ParseUint_loop_of_uint_acc; exact B ..].
Qed.

Lemma string_of_uint_first (d : Decimal.uint) :
  d <> Decimal.Nil ->
  exists c s,
    NilEmpty.string_of_uint d = String c s /\ strconv.is_sign c = false.
Proof.
  destruct d; intros N; [congruence | ..];
    cbn [NilEmpty.string_of_uint]; do 2 eexists; split; reflexivity.
Qed.

(** The digits of a positive number, sign apart, on either path of
    [Atoi]. *)
Lemma Atoi_digits (p : positive) (neg : bool) :
  Z.pos p <= 2 ^ 63 - (if neg then 0 else 1) ->
  strconv.Atoi
    ((if neg then "-" else "") ++ NilEmpty.string_of_uint (Pos.to_uint p))
  = (if neg then Z.neg p else Z.pos p, None).
Proof.
  intros B.
  destruct (string_of_uint_first (Pos.to_uint p)
              (DecimalPos.Unsigned.to_uint_nonnil p)) as (c & s & E & S).
  pose proof (Atoi_loop_of_uint (Pos.to_uint p)) as F.
  pose proof (ParseUint_loop_of_uint (Pos.to_uint p)) as U.
  rewrite DecimalPos.Unsigned.of_to in F, U. cbn [Z.of_N] in F, U.
  assert (C : 2 ^ 63 = 9223372036854775808) by reflexivity.
  assert (U' : strconv.ParseUint_loop 0
                 (NilEmpty.string_of_uint (Pos.to_uint p)) = (Z.pos p, None)).
  { apply U. change strconv.maxUint64 with 18446744073709551615.
    destruct neg; lia. }
  clear U. rewrite E in F, U' |- *.
  unfold strconv.Atoi.
  destruct neg; cbn [append].
  - destruct ((0 <? String.length (String "-" (String c s)))
              && (String.length (String "-" (String c s)) <? 19))%nat.
    + change (strconv.is_sign "-") with true. cbv iota.
      rewrite F. reflexivity.
    + unfold strconv.ParseInt, strconv.ParseUint.
      change (strconv.is_sign "-") with true. cbv iota.
      rewrite U'. change ("-" =? "-")%char with true.
      cbn [negb andb].
      destruct (2 ^ 63 <? Z.pos p) eqn:O; [apply Z.ltb_lt in O; lia|].
      reflexivity.
  - destruct ((0 <? String.length (String c s))
              && (String.length (String c s) <? 19))%nat.
    + rewrite S. rewrite F.
      unfold strconv.is_sign in S. apply orb_false_iff in S.
      destruct S as [_ S]. rewrite S. reflexivity.
    + unfold strconv.ParseInt, strconv.ParseUint.
      rewrite S. rewrite U'.
      unfold strconv.is_sign in S. apply orb_false_iff in S.
      destruct S as [_ S]. rewrite S. cbn [negb andb].
      destruct (2 ^ 63 <=? Z.pos p) eqn:O; [apply Z.leb_le in O; lia|].
      reflexivity.
Qed.

(** [strconv.Atoi] gives back every [int] printed in decimal. *)
Lemma Atoi_decimal (n : Z) :
  - 2 ^ 63 <= n < 2 ^ 63 ->
  strconv.Atoi (fmt.decimal n) = (n, None).
Proof.
  intros B. destruct n as [|p|p].
  - reflexivity.
  - apply (Atoi_digits p false). cbv iota. lia.
  - apply (Atoi_digits p true). cbv iota. lia.
Qed.

(* ----------------------------------------------------------------- *)
(** ** [forwarderConnect] with a port that parses *)



(** X15.  A port written as the decimal text of an [int] [n] never makes
    [forwarderConnect] fail: the text is read back as [n], the client
    handed to [Connect] has port [n] and the configured server, and the
    function returns [nil] with the client and the goroutines [Connect]
    left behind. *)
Theorem forwarderConnect_decimal_port (Connect : main.NSClient_Connect)
    (onIncomingDownlink : udpPacketCallback) (g : main.Globals) (n : Z) :
  - 2 ^ 63 <= n < 2 ^ 63 ->
  main.Port (main.Forwarder (main.config g)) = fmt.decimal n ->
  exists err client started,
    Connect
      {| lds.Server := main.Server (main.Forwarder (main.config g));
         lds.Port := n;
         lds.connected := lds.connected (main.cNSClient g);
         lds.udpEvents := lds.udpEvents (main.cNSClient g) |}
      (main.MAC (main.GW (main.config g)))
      onIncomingDownlink
    = (err, client, started)
    /\ main.forwarderConnect Connect onIncomingDownlink g
       = (None,
          {| main.config := main.config g;
             main.cNSClient := client;
             main.goroutines := main.goroutines g ++ started |}).
Proof.
  intros B E. unfold main.forwarderConnect.
  rewrite E, (Atoi_decimal n B).
  destruct (Connect _ _ _) as [[err client] started].
  exists err, client, started. split; reflexivity.
Qed.

Lemma forwarderConnect_decimal_port_witness :
  let g := {| main.config := sample_config;
              main.cNSClient := unroutable_client;
              main.goroutines := [] |} in
  exists err client started,
    sample_Connect
      {| lds.Server := main.Server (main.Forwarder (main.config g));
         lds.Port := 1700;
         lds.connected := lds.connected (main.cNSClient g);
         lds.udpEvents := lds.udpEvents (main.cNSClient g) |}
      (main.MAC (main.GW (main.config g)))
      (fun _ => None)
    = (err, client, started)
    /\ main.forwarderConnect sample_Connect (fun _ => None) g
       = (None,
          {| main.config := main.config g;
             main.cNSClient := client;
             main.goroutines := main.goroutines g ++ started |}).
Proof.
  intros g.
  apply (forwarderConnect_decimal_port sample_Connect (fun _ => None) g
           1700).
  - split; [lia | reflexivity].
  - reflexivity.
Defined.

(* ----------------------------------------------------------------- *)
(** ** [send] *)

(** X16.  [send] returns [nil] exactly when one datagram went out, to the
    parsed server address and the client's port, with the bytes given;
    with any error nothing went out. *)
Theorem send_nil_iff_sent (env : Env) (client : lds.NSClient)
    (datagram : list byte) :
  (fst (lds.send env client datagram) = None
   <-> exists ip,
         lds.ParseIP env (lds.Server client) = Some ip
         /\ snd (lds.send env client datagram)
            = [ {| lds.dst := ip; lds.dport := lds.Port client;
                   lds.bytes := datagram |} ])
  /\ (fst (lds.send env client datagram) <> None ->
      snd (lds.send env client datagram) = []).
Proof.
  unfold lds.send.
  destruct (lds.ParseIP env (lds.Server client)) as [ip|].
  - destruct (DialUDP env ip (lds.Port client));
      [|destruct (Write env ip (lds.Port client) datagram)];
      cbn [fst snd]; (split; [split|]);
      try discriminate; try reflexivity;
      try (intros [ip' [_ H]]; discriminate H);
      try (intros _; exists ip; auto);
      try (intros H; exfalso; apply H; reflexivity).
  - cbn [fst snd]. split; [split|]; try discriminate; try reflexivity.
    intros [ip' [H _]]. discriminate H.
Qed.

Lemma ParseIP_from_no_separator (env : Env) (s rest : string) :
  strings.Contains rest "." = false ->
  strings.Contains rest ":" = false ->
  lds.ParseIP_from env s rest = None.
Proof.
  induction rest as [|c rest IH]; cbn [lds.ParseIP_from]; [reflexivity|].
  cbn [strings.Contains strings.HasPrefix]. intros D C.
  apply orb_false_iff in D. destruct D as [D1 D2].
  apply orb_false_iff in C. destruct C as [C1 C2].
  destruct (c =? ".")%char eqn:E1.
  { rewrite Ascii.eqb_sym, E1 in D1. destruct rest; discriminate D1. }
  destruct (c =? ":")%char eqn:E2.
  { rewrite Ascii.eqb_sym, E2 in C1. destruct rest; discriminate C1. }
  apply IH; assumption.
Qed.

(** X17.  A server given by a name with neither dot nor colon, such as
    [localhost], is never looked up: [send] refuses it with the error "bad
    network server IP" and nothing goes out, whatever the network. *)
Theorem send_server_name (env : Env) (client : lds.NSClient)
    (datagram : list byte) :
  strings.Contains (lds.Server client) "." = false ->
  strings.Contains (lds.Server client) ":" = false ->
  lds.send env client datagram
  = (Some (errors_New "bad network server IP"), []).
Proof.
  intros D C. unfold lds.send, lds.ParseIP.
  rewrite (ParseIP_from_no_separator env _ _ D C). reflexivity.
Qed.

Lemma send_server_name_witness :
  lds.send sample_env
    {| lds.Server := "localhost"; lds.Port := 1700; lds.connected := true;
       lds.udpEvents := {| evio.Data := None |} |}
    [x02]
  = (Some (errors_New "bad network server IP"), []).
Proof.
  apply (send_server_name sample_env
           {| lds.Server := "localhost"; lds.Port := 1700;
              lds.connected := true;
              lds.udpEvents := {| evio.Data := None |} |} [x02]);
    reflexivity.
Defined.

(* ----------------------------------------------------------------- *)
(** ** The console writer *)

Lemma Sprintf_s_s (a b : string) :
  fmt.Sprintf "%s%s" [fmt.Str a; fmt.Str b] = (a ++ b)%string.
Proof.
  change (fmt.Sprintf "%s%s" [fmt.Str a; fmt.Str b])
    with (a ++ b ++ "")%string.
  rewrite append_empty_r. reflexivity.
Qed.

Lemma append_assoc (a b c : string) :
  ((a ++ b) ++ c)%string = (a ++ b ++ c)%string.
Proof. induction a as [|x a IH]; cbn; [|rewrite IH]; reflexivity. Qed.

(** X18.  The history holds every byte written, in the order of the
    calls, after what it held before; and every call reports all of its
    bytes as written. *)
Theorem Writes_history (ps : list (list byte)) (o : main_output.outputWriter) :
  main_output.History (fst (main_output.Writes o ps))
  = (main_output.History o
     ++ String.concat "" (map string_of_list_byte ps))%string
  /\ snd (main_output.Writes o ps)
     = map (fun p => Z.of_nat (List.length p)) ps.
Proof.
  revert o. induction ps as [|p ps IH]; intros o.
  - cbn. rewrite append_empty_r. auto.
  - cbn [main_output.Writes]. unfold main_output.Write.
    match goal with
    | |- context [main_output.Writes ?o1 ps] =>
        destruct (IH o1) as [H N];
        destruct (main_output.Writes o1 ps) as [o2 ns]
    end.
    cbn [fst snd main_output.History] in *.
    rewrite H, N, Sprintf_s_s, append_assoc. split; [|reflexivity].
    f_equal. destruct ps as [|q ps']; [|reflexivity].
    cbn. apply append_empty_r.
Qed.

(** X19.  The counter counts the calls: after a run of [k] writes it has
    grown by [k], as long as it stays an [int]. *)
Theorem Writes_counter (ps : list (list byte)) (o : main_output.outputWriter) :
  - 2 ^ 63 <= main_output.Counter o ->
  main_output.Counter o + Z.of_nat (List.length ps) < 2 ^ 63 ->
  main_output.Counter (fst (main_output.Writes o ps))
  = main_output.Counter o + Z.of_nat (List.length ps).
Proof.
  revert o. induction ps as [|p ps IH]; intros o L U.
  - cbn. lia.
  - cbn [main_output.Writes]. unfold main_output.Write.
    cbn [List.length] in U. rewrite Nat2Z.inj_succ in U.
    assert (S : signed 64 (main_output.Counter o + 1)
                = main_output.Counter o + 1).
    { unfold signed, wrap. change (2 ^ 64) with 18446744073709551616.
      change (2 ^ (64 - 1)) with 9223372036854775808.
      change (2 ^ 63) with 9223372036854775808 in L, U.
      destruct (Z.le_gt_cases 0 (main_output.Counter o + 1)) as [P | N].
      - rewrite Z.mod_small by lia.
        destruct (_ <? _) eqn:C; [reflexivity|apply Z.ltb_ge in C; lia].
      - replace ((main_output.Counter o + 1) mod 18446744073709551616)
          with (main_output.Counter o + 1 + 18446744073709551616).
        + destruct (_ <? _) eqn:C; [apply Z.ltb_lt in C; lia | lia].
        + apply Z.mod_unique with (q := -1); lia. }
    match goal with
    | |- context [main_output.Writes ?o1 ps] =>
        pose proof (IH o1) as H;
        destruct (main_output.Writes o1 ps) as [o2 ns]
    end.
    cbn [fst main_output.Counter] in *. rewrite S in H.
    rewrite H by lia. cbn [List.length]. rewrite Nat2Z.inj_succ. lia.
Qed.

Lemma Writes_counter_witness :
  main_output.Counter
    (fst (main_output.Writes
            {| main_output.Text := ""; main_output.Counter := 0;
               main_output.History := "" |}
            [[x61]; [x62; x63]]))
  = 0 + Z.of_nat 2.
Proof.
  apply (Writes_counter [[x61]; [x62; x63]]
           {| main_output.Text := ""; main_output.Counter := 0;
              main_output.History := "" |});
    cbn; lia.
Defined.

(* ----------------------------------------------------------------- *)
(** ** [exportConf] *)

Lemma HasPrefix_refl (s : string) : strings.HasPrefix s s = true.
Proof.
  induction s as [|c s IH]; cbn; [reflexivity|].
  rewrite Ascii.eqb_refl. exact IH.
Qed.

Lemma Contains_append (a b : string) :
  strings.Contains (a ++ b) b = true.
Proof.
  induction a as [|c a IH]; cbn [append].
  - destruct b as [|d b]; cbn; [reflexivity|].
    rewrite Ascii.eqb_refl, HasPrefix_refl. reflexivity.
  - cbn [strings.Contains]. rewrite IH. apply orb_true_r.
Qed.

Lemma Sprintf_toml (filename : string) :
  fmt.Sprintf "%s.toml" [fmt.Str filename] = (filename ++ ".toml")%string.
Proof. reflexivity. Qed.

(** X20.  [exportConf] creates at most one file, and the name of a file it
    creates always contains [.toml]: the name given when [.toml] occurs in
    it anywhere, that name followed by [.toml] otherwise. *)
Theorem exportConf_file_name (fs : main_conf.Files)
    (config : main.tomlConfig) (filename confFile : string) :
  let name :=
    if strings.Contains filename ".toml" then filename
    else (filename ++ ".toml")%string in
  strings.Contains name ".toml" = true
  /\ (snd (main_conf.exportConf fs config filename confFile) = []
      \/ snd (main_conf.exportConf fs config filename confFile) = [name]).
Proof.
  cbv zeta. unfold main_conf.exportConf. rewrite Sprintf_toml.
  destruct (strings.Contains filename ".toml") eqn:C; cbn [negb].
  - split; [exact C|].
    destruct (main_conf.os_Create fs filename); [auto|].
    destruct (main_conf.toml_Encode fs config); auto.
  - split; [apply Contains_append|].
    destruct (main_conf.os_Create fs _); [auto|].
    destruct (main_conf.toml_Encode fs config); auto.
Qed.

(** X21.  Saving keeps [*confFile] a name that contains [.toml]: it is
    left alone unless the file was created and the configuration encoded
    without error, and then it is the name of the file just created. *)
Theorem exportConf_confFile (fs : main_conf.Files)
    (config : main.tomlConfig) (filename confFile : string) :
  strings.Contains confFile ".toml" = true ->
  let r := main_conf.exportConf fs config filename confFile in
  strings.Contains (fst r) ".toml" = true
  /\ (fst r = confFile
      \/ (snd r = [fst r]
          /\ main_conf.os_Create fs (fst r) = None
          /\ main_conf.toml_Encode fs config = None)).
Proof.
  intros H. cbv zeta. unfold main_conf.exportConf. rewrite Sprintf_toml.
  destruct (strings.Contains filename ".toml") eqn:C; cbn [negb].
  - destruct (main_conf.os_Create fs filename) eqn:O; [auto|].
    destruct (main_conf.toml_Encode fs config) eqn:E; [auto|].
    cbn [fst snd]. auto.
  - destruct (main_conf.os_Create fs _) eqn:O; [auto|].
    destruct (main_conf.toml_Encode fs config) eqn:E; [auto|].
    cbn [fst snd]. split; [apply Contains_append | auto].
Qed.

Lemma exportConf_confFile_witness :
  let r := main_conf.exportConf sample_files sample_config "confs/x"
             "conf.toml" in
  strings.Contains (fst r) ".toml" = true
  /\ (fst r = "conf.toml"
      \/ (snd r = [fst r]
          /\ main_conf.os_Create sample_files (fst r) = None
          /\ main_conf.toml_Encode sample_files sample_config = None)).
Proof.
  apply (exportConf_confFile sample_files sample_config "confs/x"
           "conf.toml").
  reflexivity.
Defined.

(* ----------------------------------------------------------------- *)
(** ** [connectClient] *)

Lemma Sprintf_literal (s : string) (args : list fmt.arg) :
  strings.Contains s "%" = false ->
  forall rest,
    fmt.Sprintf (s ++ rest) args = (s ++ fmt.Sprintf rest args)%string.
Proof.
  induction s as [|c s IH]; intros H rest; [reflexivity|].
  cbn [strings.Contains strings.HasPrefix] in H.
  apply orb_false_iff in H. destruct H as [H1 H2].
  assert (E : (c =? "%")%char = false).
  { destruct (c =? "%")%char eqn:E; [|reflexivity].
    rewrite Ascii.eqb_sym, E in H1. destruct s; discriminate H1. }
  cbn [append fmt.Sprintf]. rewrite E, (IH H2). reflexivity.
Qed.

(** A template with the one placeholder [%s] and no other percent sign is
    resolved to the text before it, the operand, and the text after it. *)
Lemma Sprintf_template (pre post mac : string) :
  strings.Contains pre "%" = false ->
  strings.Contains post "%" = false ->
  fmt.Sprintf (pre ++ "%s" ++ post) [fmt.Str mac]
  = (pre ++ mac ++ post)%string.
Proof.
  intros A B. rewrite (Sprintf_literal pre _ A).
  change (fmt.Sprintf ("%s" ++ post) [fmt.Str mac])
    with (mac ++ fmt.Sprintf post [])%string.
  rewrite <- (append_empty_r post) at 1.
  rewrite (Sprintf_literal post _ B). cbn [fmt.Sprintf].
  rewrite append_empty_r. reflexivity.
Qed.

Lemma decimal_inj (a b : Z) : fmt.decimal a = fmt.decimal b -> a = b.
Proof.
  unfold fmt.decimal. intros H.
  apply (f_equal NilEmpty.int_of_string) in H.
  rewrite !NilEmpty.isi in H. injection H as H.
  apply DecimalZ.to_int_inj. exact H.
Qed.

(** X22.  When the broker refuses the connection, [connectClient] returns
    the broker's error and makes no subscription; the package variable
    [mqttClient] nevertheless holds the new client, built from the
    current configuration, whatever it held before. *)
Theorem connectClient_refused (env : main_mqtt.Broker) (cfg : main_mqtt.mqtt)
    (config : main.tomlConfig) (onIncomingDownlink : udpPacketCallback)
    (mqttClient : option paho.Client) (err : error) :
  let opts :=
    {| paho.Broker := main_mqtt.Server cfg;
       paho.Username := main_mqtt.User cfg;
       paho.Password := main_mqtt.Password cfg;
       paho.AutoReconnect := true;
       paho.ClientID :=
         ("lds-" ++ fmt.decimal (main_mqtt.UnixNano env))%string |} in
  main_mqtt.Connect_error env opts = Some err ->
  main_mqtt.connectClient env cfg config onIncomingDownlink mqttClient
  = (Some err, Some {| paho.options := opts |}, []).
Proof.
  cbv zeta. intros H. unfold main_mqtt.connectClient.
  assert (I : fmt.Sprintf "lds-%d" [fmt.Int (main_mqtt.UnixNano env)]
              = ("lds-" ++ fmt.decimal (main_mqtt.UnixNano env))%string).
  { change (fmt.Sprintf "lds-%d" [fmt.Int (main_mqtt.UnixNano env)])
      with ("lds-" ++ fmt.decimal (main_mqtt.UnixNano env) ++ "")%string.
    rewrite append_empty_r. reflexivity. }
  rewrite I, H. reflexivity.
Qed.

Lemma connectClient_refused_witness :
  main_mqtt.connectClient refusing_broker sample_mqtt sample_config
    (fun _ => None) None
  = (Some (net_OpError "dial"),
     Some {| paho.options :=
               {| paho.Broker := "tcp://127.0.0.1:1883";
                  paho.Username := "lds";
                  paho.Password := "secret";
                  paho.AutoReconnect := true;
                  paho.ClientID := "lds-1583064000000000001" |} |},
     []).
Proof.
  apply (connectClient_refused refusing_broker sample_mqtt sample_config
           (fun _ => None) None (net_OpError "dial")).
  reflexivity.
Defined.

(** X23.  When the broker accepts the connection and the downlink topic
    template is some text, the placeholder [%s] and some text, with no
    other percent sign, [connectClient] returns [nil] and makes exactly one
    subscription, with QoS 1, to the template with the gateway MAC in the
    place of the placeholder. *)
Theorem connectClient_subscribes (env : main_mqtt.Broker)
    (cfg : main_mqtt.mqtt) (config : main.tomlConfig)
    (onIncomingDownlink : udpPacketCallback)
    (mqttClient : option paho.Client) (pre post : string) :
  (forall opts, main_mqtt.Connect_error env opts = None) ->
  main_mqtt.DownlinkTopic cfg = (pre ++ "%s" ++ post)%string ->
  strings.Contains pre "%" = false ->
  strings.Contains post "%" = false ->
  exists client handler,
    main_mqtt.connectClient env cfg config onIncomingDownlink mqttClient
    = (None, Some client,
       [ {| paho.topic :=
              (pre ++ main.MAC (main.GW config) ++ post)%string;
            paho.qos := 1;
            paho.callback := handler |} ])
    /\ forall payload, handler payload = onIncomingDownlink payload.
Proof.
  intros C T A B. unfold main_mqtt.connectClient.
  rewrite C, T, (Sprintf_template pre post _ A B).
  do 2 eexists. split; [reflexivity|]. reflexivity.
Qed.

Lemma connectClient_subscribes_witness :
  exists client handler,
    main_mqtt.connectClient sample_broker sample_mqtt sample_config
      (fun _ => None) None
    = (None, Some client,
       [ {| paho.topic := "gateway/0011223344556677/command/down";
            paho.qos := 1;
            paho.callback := handler |} ])
    /\ forall payload, handler payload = None.
Proof.
  apply (connectClient_subscribes sample_broker sample_mqtt sample_config
           (fun _ => None) None "gateway/" "/command/down");
    reflexivity.
Defined.

(** X24.  The client identifier is ["lds-"] followed by the clock's
    nanoseconds in decimal, so that two calls made at different
    nanoseconds use different identifiers. *)
Theorem connectClient_ClientID (env1 env2 : main_mqtt.Broker)
    (cfg1 cfg2 : main_mqtt.mqtt) (config1 config2 : main.tomlConfig)
    (h1 h2 : udpPacketCallback) (old1 old2 : option paho.Client) :
  main_mqtt.UnixNano env1 <> main_mqtt.UnixNano env2 ->
  match snd (fst (main_mqtt.connectClient env1 cfg1 config1 h1 old1)),
        snd (fst (main_mqtt.connectClient env2 cfg2 config2 h2 old2)) with
  | Some c1, Some c2 =>
      paho.ClientID (paho.options c1) <> paho.ClientID (paho.options c2)
  | _, _ => False
  end.
Proof.
  intros N. unfold main_mqtt.connectClient.
  assert (I : forall t, fmt.Sprintf "lds-%d" [fmt.Int t]
                        = ("lds-" ++ fmt.decimal t)%string).
  { intros t.
    change (fmt.Sprintf "lds-%d" [fmt.Int t])
      with ("lds-" ++ fmt.decimal t ++ "")%string.
    rewrite append_empty_r. reflexivity. }
  rewrite !I.
  destruct (main_mqtt.Connect_error env1 _);
    destruct (main_mqtt.Connect_error env2 _);
    cbn [fst snd paho.options paho.ClientID];
    intros E; apply N; apply decimal_inj;
    cbn [append] in E; injection E as E; exact E.
Qed.

Lemma connectClient_ClientID_witness :
  match snd (fst (main_mqtt.connectClient sample_broker sample_mqtt
                    sample_config (fun _ => None) None)),
        snd (fst (main_mqtt.connectClient refusing_broker sample_mqtt
                    sample_config (fun _ => None) None)) with
  | Some c1, Some c2 =>
      paho.ClientID (paho.options c1) <> paho.ClientID (paho.options c2)
  | _, _ => False
  end.
Proof.
  apply (connectClient_ClientID sample_broker refusing_broker).
  cbn. discriminate.
Defined.
